(** * web3-providers-http: the HTTP JSON-RPC provider

    A shallow embedding of [packages/web3-providers-http/src/index.ts]
    (class [Web3ProvidersHttp]) and the properties of its connection-state
    machine and of its request/response normalisation.

    Layout: JavaScript values and objects; errors and the host environment;
    the provider object and a state-and-exception monad in which the methods
    are written; the methods themselves, each [async] method split at its
    [await]; the event loop that settles outstanding POSTs; the theorems. *)

From Stdlib Require Import Bool Arith NArith List String Ascii PrimFloat Lia.
From Stdlib Require Import Permutation Sorted.
Import ListNotations.
Local Open Scope string_scope.
Local Open Scope list_scope.
Set Warnings "-register-all".

(** ** JavaScript values *)

(** The values the provider handles: parsed JSON bodies, request parameters,
    event payloads.  A number is an IEEE-754 double, as in JavaScript.  An
    object is given by its property definitions in the order they were made
    (as an object literal or a JSON text lists them); see [own_props]. *)
Inductive JsValue : Type :=
| JUndefined
| JNull
| JBoolean (b : bool)
| JNumber (n : float)
| JString (s : string)
| JArray (items : list JsValue)
| JObject (defs : list (string * JsValue)).

Definition Props : Type := list (string * JsValue).

(** [ToBoolean]: what [v ? a : b] and [v || d] test. *)
Definition truthy (v : JsValue) : bool :=
  match v with
  | JUndefined | JNull => false
  | JBoolean b => b
  | JNumber n => negb (PrimFloat.eqb n 0%float) && negb (PrimFloat.is_nan n)
  | JString s => negb (s =? "")
  | JArray _ | JObject _ => true
  end.

(** [a === b].  Arrays and objects are compared by reference; the only
    compound operands this program compares are parsed from two different
    HTTP responses, hence never the same reference. *)
Definition strict_eq (a b : JsValue) : bool :=
  match a, b with
  | JUndefined, JUndefined => true
  | JNull, JNull => true
  | JBoolean x, JBoolean y => Bool.eqb x y
  | JNumber x, JNumber y => PrimFloat.eqb x y
  | JString x, JString y => (x =? y)
  | _, _ => false
  end.

Definition strict_neq (a b : JsValue) : bool := negb (strict_eq a b).

Definition nullish (v : JsValue) : bool :=
  match v with
  | JUndefined | JNull => true
  | _ => false
  end.

(** *** Objects *)

Fixpoint props_get (k : string) (o : Props) : option JsValue :=
  match o with
  | [] => None
  | (k', v) :: o' => if k' =? k then Some v else props_get k o'
  end.

(** [o[k] = v]: an existing property keeps its place, a new one goes last. *)
Fixpoint props_set (k : string) (v : JsValue) (o : Props) : Props :=
  match o with
  | [] => [(k, v)]
  | (k', v') :: o' =>
      if k' =? k then (k, v) :: o' else (k', v') :: props_set k v o'
  end.

(** Defining the properties [defs], in order, on top of [o]:
    [{ ...o, k1: v1, k2: v2 }]. *)
Definition props_define (o : Props) (defs : Props) : Props :=
  fold_left (fun acc kv => props_set (fst kv) (snd kv) acc) defs o.

(** The own enumerable string-keyed properties, in creation order, of the
    object that the definitions [defs] build: one entry per key, holding the
    value defined last at the place of the first definition. *)
Definition own_props (defs : Props) : Props := props_define [] defs.

(** Array-index keys: canonical decimal strings of the integers
    [0 .. 2^32 - 2]. *)
Definition digit_of (c : ascii) : option N :=
  let n := N_of_ascii c in
  if ((48 <=? n) && (n <=? 57))%N then Some (n - 48)%N else None.

Fixpoint decimal_value (s : string) (acc : N) : option N :=
  match s with
  | EmptyString => Some acc
  | String c s' =>
      match digit_of c with
      | Some d => decimal_value s' (acc * 10 + d)%N
      | None => None
      end
  end.

Definition array_index (k : string) : option N :=
  match k with
  | EmptyString => None
  | String c rest =>
      if (c =? "0")%char && negb (rest =? "") then None
      else match decimal_value k 0%N with
           | Some n => if (n <? 4294967295)%N then Some n else None
           | None => None
           end
  end.

Fixpoint insert_index (e : N * (string * JsValue))
    (l : list (N * (string * JsValue))) : list (N * (string * JsValue)) :=
  match l with
  | [] => [e]
  | e' :: l' =>
      if (fst e <? fst e')%N then e :: l else e' :: insert_index e l'
  end.

Definition sort_index (l : list (N * (string * JsValue)))
    : list (N * (string * JsValue)) :=
  fold_right insert_index [] l.

Fixpoint index_entries (o : Props) : list (N * (string * JsValue)) :=
  match o with
  | [] => []
  | (k, v) :: o' =>
      match array_index k with
      | Some n => (n, (k, v)) :: index_entries o'
      | None => index_entries o'
      end
  end.

Definition named_entries (o : Props) : Props :=
  filter (fun kv => match array_index (fst kv) with
                    | Some _ => false
                    | None => true
                    end) o.

(** [OrdinaryOwnPropertyKeys] order: array indices ascending, then the other
    string keys in creation order. *)
Definition enumeration (defs : Props) : Props :=
  let o := own_props defs in
  map snd (sort_index (index_entries o)) ++ named_entries o.

Definition Object_keys (defs : Props) : list string :=
  map fst (enumeration defs).

Definition Object_values (defs : Props) : list JsValue :=
  map snd (enumeration defs).

(** [v[k]] for a non-nullish [v] and a key that no built-in prototype
    defines (the program reads [data], [result] and [chainId] only). *)
Definition property (v : JsValue) (k : string) : JsValue :=
  match v with
  | JObject defs =>
      match props_get k (own_props defs) with
      | Some x => x
      | None => JUndefined
      end
  | _ => JUndefined
  end.

(** ** Errors and the host environment *)

(** A thrown error object, as far as the program reads it: [error.code],
    [error.message] and [error.stack]. *)
Record JsError : Type := mkError {
  code : JsValue;
  message : string;
  stack : string
}.

(** Modelled from the spec: the error names of [./errors]
    ([Web3ProvidersHttpErrorNames]), which is not among the sources; the
    taxonomy of the spec's section 7. *)
Inductive Web3ProvidersHttpErrorNames : Type :=
| invalidClientUrl
| noClientInitialized
| connectionError
| chainIdRetrievalError.

(** What the program takes from outside this file: the logger's error
    constructor ([Web3CoreLogger.makeError], given a name, a message and the
    offending [web3Client]), the stack text the engine attaches to
    [Error(message)], and the message of the [TypeError] the engine raises
    when a property of [null] or [undefined] is read. *)
Record Host : Type := mkHost {
  makeError : Web3ProvidersHttpErrorNames -> string -> JsValue -> JsError;
  stack_trace : string -> string;
  TypeError_message : JsValue -> string -> string
}.

(** The outcome of evaluating a statement list, and the settlement of a
    promise: a value, or a thrown error (a rejection). *)
Inductive Completion (A : Type) : Type :=
| Normal (a : A)
| Throw (e : JsError).
Arguments Normal {A} a.
Arguments Throw {A} e.

(** ** The provider object and its surroundings *)

(** [AxiosInstance], as created by [axios.create({ baseURL })]. *)
Record AxiosInstance : Type := mkAxios {
  baseURL : JsValue
}.

(** The part of an axios response the program reads. *)
Record AxiosResponse : Type := mkResponse {
  data : JsValue
}.

(** The fields of a [Web3ProvidersHttp] instance.  A field that has not
    been assigned yet is [None] / [JUndefined]. *)
Record Web3ProvidersHttp : Type := mkProvider {
  _httpClient : option AxiosInstance;
  _clientChainId : JsValue;
  _connected : bool;
  web3Client : JsValue
}.

(** Modelled from the spec: [Web3ProviderEvents] of [web3-core-types], which
    is not among the sources; the four event kinds of [on]. *)
Inductive Web3ProviderEvents : Type :=
| Connect
| Disconnect
| ChainChanged
| Message.

Definition Web3ProviderEvents_eqb (a b : Web3ProviderEvents) : bool :=
  match a, b with
  | Connect, Connect | Disconnect, Disconnect
  | ChainChanged, ChainChanged | Message, Message => true
  | _, _ => false
  end.

(** Modelled from the spec: [RequestArguments] of [web3-core-types], which
    is not among the sources:
    [{ method: string, params: array|object, rpcOptions?: object,
       providerOptions?: object }]. *)
Inductive Params : Type :=
| ParamsUndefined
| ParamsArray (items : list JsValue)
| ParamsObject (defs : Props).

Record ProviderOptions : Type := mkProviderOptions {
  axiosConfig : JsValue
}.

Record RequestArguments : Type := mkArgs {
  method : string;
  params : Params;
  rpcOptions : option Props;
  providerOptions : option ProviderOptions
}.

(** One call of [this._httpClient.post(url, data, config)], tagged with the
    invocation of [request] that made it. *)
Record PostCall : Type := mkPost {
  post_request : nat;
  post_client : AxiosInstance;
  post_url : string;
  post_data : JsValue;
  post_config : JsValue
}.

(** Who started a chain-id probe ([_connectToClient]). *)
Inductive ProbeOrigin : Type :=
| FromConstructor
| FromSetWeb3Client
| FromRequest.

(** Who awaits an invocation of [request]: code outside the provider, or
    [_getChainId] on behalf of [_connectToClient]. *)
Inductive Awaiting : Type :=
| ExternalCaller
| ChainIdProbe (origin : ProbeOrigin).

(** The provider together with everything it acts on.  [emitted] logs the
    calls of [this.emit], oldest first; [network] logs the POSTs; [pending]
    holds the invocations of [request] suspended at [await post(...)];
    [settled] logs how the promises handed to external callers settled;
    [unhandled] logs the rejections of the [_connectToClient] promises that
    nobody awaits (what the engine does with an unhandled rejection is not
    the provider's business).  Invocations of [request] are numbered from
    [0]; the numbers only name them and no method reads them. *)
Record World : Type := mkWorld {
  this : Web3ProvidersHttp;
  emitted : list (Web3ProviderEvents * JsValue);
  network : list PostCall;
  pending : list (nat * Awaiting);
  settled : list (nat * Completion JsValue);
  unhandled : list JsError;
  next_request : nat
}.

Definition with_this (f : Web3ProvidersHttp -> Web3ProvidersHttp) (w : World)
    : World :=
  mkWorld (f (this w)) (emitted w) (network w) (pending w) (settled w)
    (unhandled w) (next_request w).

(** ** Statements: state and exceptions *)

(** A statement list runs against the world and completes normally or
    abruptly; what it did to the world before throwing stays done. *)
Definition M (A : Type) : Type := World -> Completion A * World.

Definition ret {A} (a : A) : M A := fun w => (Normal a, w).

Definition throw {A} (e : JsError) : M A := fun w => (Throw e, w).

Definition bind {A B} (m : M A) (k : A -> M B) : M B :=
  fun w =>
    match m w with
    | (Normal a, w') => k a w'
    | (Throw e, w') => (Throw e, w')
    end.

(** [try { m } catch (error) { h error }] *)
Definition try_catch {A} (m : M A) (h : JsError -> M A) : M A :=
  fun w =>
    match m w with
    | (Normal a, w') => (Normal a, w')
    | (Throw e, w') => h e w'
    end.

(** Calling an [async] function never throws: it yields the settlement of
    the promise. *)
Definition settle {A} (m : M A) : M (Completion A) :=
  fun w => let (r, w') := m w in (Normal r, w').

(** [await p], once [p] has settled as [r]. *)
Definition await {A} (r : Completion A) : M A :=
  match r with
  | Normal a => ret a
  | Throw e => throw e
  end.

Declare Scope js_scope.
Delimit Scope js_scope with js.
Notation "x <- m ;; k" := (bind m (fun x => k))
  (at level 61, m at next level, right associativity) : js_scope.
Notation "m ;; k" := (bind m (fun _ => k))
  (at level 61, right associativity) : js_scope.
Notation "'try_' m 'catch_' h" := (try_catch m h)
  (at level 61, m at next level, h at next level) : js_scope.
Local Open Scope js_scope.

Definition get_this : M Web3ProvidersHttp := fun w => (Normal (this w), w).

Definition modify (f : World -> World) : M unit := fun w => (Normal tt, f w).

Definition set__httpClient (c : AxiosInstance) : M unit :=
  modify (with_this (fun p =>
    mkProvider (Some c) (_clientChainId p) (_connected p) (web3Client p))).

Definition set__clientChainId (v : JsValue) : M unit :=
  modify (with_this (fun p =>
    mkProvider (_httpClient p) v (_connected p) (web3Client p))).

Definition set__connected (b : bool) : M unit :=
  modify (with_this (fun p =>
    mkProvider (_httpClient p) (_clientChainId p) b (web3Client p))).

Definition set_web3Client (v : JsValue) : M unit :=
  modify (with_this (fun p =>
    mkProvider (_httpClient p) (_clientChainId p) (_connected p) v)).

(** [this.emit(event, payload)].  The listeners are outside the program:
    they are taken to return without throwing. *)
Definition emit (event : Web3ProviderEvents) (payload : JsValue) : M unit :=
  modify (fun w =>
    mkWorld (this w) (emitted w ++ [(event, payload)]) (network w)
      (pending w) (settled w) (unhandled w) (next_request w)).

(** A fresh number for an invocation of [request]. *)
Definition enter_request : M nat :=
  fun w =>
    (Normal (next_request w),
     mkWorld (this w) (emitted w) (network w) (pending w) (settled w)
       (unhandled w) (S (next_request w))).

(** [client.post(url, data, config)]: the request goes out; its promise
    settles later, by the event loop. *)
Definition axios_post (rid : nat) (client : AxiosInstance) (url : string)
    (body config : JsValue) : M unit :=
  modify (fun w =>
    mkWorld (this w) (emitted w)
      (network w ++ [mkPost rid client url body config])
      (pending w) (settled w) (unhandled w) (next_request w)).

(** The invocation [rid] of [request] is suspended at its [await]. *)
Definition suspend (rid : nat) (k : Awaiting) : M unit :=
  modify (fun w =>
    mkWorld (this w) (emitted w) (network w) (pending w ++ [(rid, k)])
      (settled w) (unhandled w) (next_request w)).

Definition hand_over (rid : nat) (r : Completion JsValue) : M unit :=
  modify (fun w =>
    mkWorld (this w) (emitted w) (network w) (pending w)
      (settled w ++ [(rid, r)]) (unhandled w) (next_request w)).

Definition unhandledRejection (e : JsError) : M unit :=
  modify (fun w =>
    mkWorld (this w) (emitted w) (network w) (pending w) (settled w)
      (unhandled w ++ [e]) (next_request w)).

(** ** The URL test *)

(** [/^http(s)?:\/\//i]: a sequence of characters, some of them optional,
    matched at the start of the string, letters compared without case.
    With the [i] flag and without the [u] flag a pattern character and an
    input character match when their upper-case forms agree, and no
    character outside ASCII is folded onto an ASCII one. *)
Inductive RegexItem : Type :=
| Lit (c : ascii)
| Opt (c : ascii).

Definition upcase (c : ascii) : ascii :=
  let n := nat_of_ascii c in
  if ((97 <=? n) && (n <=? 122))%nat then ascii_of_nat (n - 32) else c.

Definition char_matches_i (p c : ascii) : bool :=
  (upcase p =? upcase c)%char.

Fixpoint regex_test (re : list RegexItem) (s : string) : bool :=
  match re with
  | [] => true
  | Lit p :: re' =>
      match s with
      | String c s' => char_matches_i p c && regex_test re' s'
      | EmptyString => false
      end
  | Opt p :: re' =>
      match s with
      | String c s' => char_matches_i p c && regex_test re' s'
      | EmptyString => false
      end
      || regex_test re' s
  end.

Definition http_url_regex : list RegexItem :=
  [Lit "h"; Lit "t"; Lit "t"; Lit "p"; Opt "s"; Lit ":"; Lit "/"; Lit "/"].

(** [typeof web3Client === 'string' && /^http(s)?:\/\//i.test(web3Client)] *)
Definition is_http_url (web3Client : JsValue) : bool :=
  match web3Client with
  | JString url => regex_test http_url_regex url
  | _ => false
  end.

(** The same test in the spec's words, to compare [is_http_url] with: the
    string, its letters taken to lower case, starts with [http://] or with
    [https://]. *)
Definition downcase (c : ascii) : ascii :=
  let n := nat_of_ascii c in
  if ((65 <=? n) && (n <=? 90))%nat then ascii_of_nat (n + 32) else c.

Fixpoint lowercase (s : string) : string :=
  match s with
  | EmptyString => EmptyString
  | String c s' => String (downcase c) (lowercase s')
  end.

Fixpoint starts_with (p s : string) : bool :=
  match p, s with
  | EmptyString, _ => true
  | String _ _, EmptyString => false
  | String a p', String b s' => (a =? b)%char && starts_with p' s'
  end.

(** The expression that matches the characters of [p], one by one. *)
Fixpoint lits (p : string) : list RegexItem :=
  match p with
  | EmptyString => []
  | String c p' => Lit c :: lits p'
  end.

(** A pattern character that, under the [i] flag, matches the input
    characters whose lower-case form it is. *)
Definition caseless (p : ascii) : Prop :=
  forall c, char_matches_i p c = (p =? downcase c)%char.

Definition has_http_scheme (s : string) : bool :=
  starts_with "http://" (lowercase s) || starts_with "https://" (lowercase s).

Definition newline : string := String (ascii_of_nat 10) EmptyString.

(** ** The methods of [Web3ProvidersHttp] *)

Section Provider.

Variable host : Host.

(** [Error(message)] *)
Definition Error_ (msg : string) : JsError :=
  mkError JUndefined msg (stack_trace host msg).

(** [v[k]], which throws a [TypeError] on [null] and [undefined]. *)
Definition get_property (v : JsValue) (k : string) : M JsValue :=
  if nullish v
  then throw (Error_ (TypeError_message host v k))
  else ret (property v k).

Definition _validateClientUrl (web3Client : JsValue) : M unit :=
  try_ (if is_http_url web3Client
        then ret tt
        else throw (makeError host invalidClientUrl
                      "Provided web3Client is an invalid HTTP(S) URL"
                      web3Client))
  catch_ (fun error => throw error).

Definition _createHttpClient (web3Client : JsValue) : M AxiosInstance :=
  try_ (_validateClientUrl web3Client ;;
        ret (mkAxios web3Client))
  catch_ (fun error => throw error).

(** The [catch] block of [request]. *)
Definition request_catch {A} (error : JsError) : M A :=
  this <- get_this ;;
  (if strict_eq (code error) (JString "ECONNREFUSED") && _connected this
   then set__connected false ;;
        emit Disconnect (JObject [("code", JNumber 4900)])
   else ret tt) ;;
  throw (Error_ (message error)).

(** [args.params === undefined || Array.isArray(args.params)
       ? args.params || [] : Object.values(args.params)] *)
Definition arrayParams (p : Params) : list JsValue :=
  match p with
  | ParamsUndefined => []
  | ParamsArray items => items
  | ParamsObject defs => Object_values defs
  end.

(** [{ ...args.rpcOptions, method: args.method, params: arrayParams }] *)
Definition request_data (args : RequestArguments) : JsValue :=
  JObject (match rpcOptions args with
           | Some o => enumeration o
           | None => []
           end
           ++ [("method", JString (method args));
               ("params", JArray (arrayParams (params args)))]).

(** [args.providerOptions?.axiosConfig || {}] *)
Definition request_config (args : RequestArguments) : JsValue :=
  match providerOptions args with
  | Some o => if truthy (axiosConfig o) then axiosConfig o else JObject []
  | None => JObject []
  end.

(** [request(args)] up to its [await]: the number of the invocation, now
    suspended with its POST under way; or the rejection of its promise. *)
Definition request (args : RequestArguments) : M nat :=
  rid <- enter_request ;;
  try_ (this <- get_this ;;
        match _httpClient this with
        | None => throw (Error_ "No HTTP client initiliazed")
        | Some client =>
            axios_post rid client "" (request_data args)
              (request_config args) ;;
            ret rid
        end)
  catch_ request_catch.

(** [_getChainId()] from its [await] on, given how the promise of
    [this.request(...)] settled. *)
Definition _getChainId_awaited (requested : Completion JsValue) : M JsValue :=
  try_ (result <- await requested ;;
        get_property result "result")
  catch_ (fun error =>
    throw (Error_ ("Error getting chain id: " ++ message error))).

(** [_connectToClient()] from its [await] on, given how the promise of
    [this._getChainId()] settled. *)
Definition _connectToClient_awaited (got : Completion JsValue) : M unit :=
  try_ (chainId <- await got ;;
        emit Connect (JObject [("chainId", chainId)]) ;;
        set__connected true ;;
        this <- get_this ;;
        (if strict_neq (_clientChainId this) JUndefined
            && strict_neq chainId (_clientChainId this)
         then emit ChainChanged chainId
         else ret tt) ;;
        set__clientChainId chainId)
  catch_ (fun error =>
    throw (Error_ ("Error connecting to client: " ++ message error
                   ++ newline ++ stack error))).

(** A probe whose [request] settled as [requested]: [_getChainId] resumes,
    then [_connectToClient]; nobody awaits the latter's promise. *)
Definition probe_resumes (requested : Completion JsValue) : M unit :=
  got <- settle (_getChainId_awaited requested) ;;
  connected <- settle (_connectToClient_awaited got) ;;
  match connected with
  | Normal _ => ret tt
  | Throw e => unhandledRejection e
  end.

Definition eth_chainId : RequestArguments :=
  mkArgs "eth_chainId" (ParamsArray []) None None.

(** The call [this._connectToClient()], never awaited: it runs up to the
    [await] inside the [request] it makes. *)
Definition _connectToClient (origin : ProbeOrigin) : M unit :=
  requested <- settle (request eth_chainId) ;;
  match requested with
  | Normal rid => suspend rid (ChainIdProbe origin)
  | Throw e => probe_resumes (Throw e)
  end.

(** [request(args)] from its [await] on, given how the POST settled. *)
Definition request_awaited (posted : Completion AxiosResponse) : M JsValue :=
  try_ (response <- await posted ;;
        this <- get_this ;;
        (if Bool.eqb (_connected this) false
         then _connectToClient FromRequest
         else ret tt) ;;
        nested <- get_property (data response) "data" ;;
        if truthy nested
        then get_property (data response) "data"
        else ret (data response))
  catch_ request_catch.

(** The object before the constructor body runs: field initialisers only. *)
Definition new_object : World :=
  mkWorld (mkProvider None JUndefined false JUndefined) [] [] [] [] [] 0.

Definition constructor_ (web3Client : JsValue) : M unit :=
  client <- _createHttpClient web3Client ;;
  set__httpClient client ;;
  set_web3Client web3Client ;;
  _connectToClient FromConstructor.

(** [new Web3ProvidersHttp(web3Client)] *)
Definition new_Web3ProvidersHttp (web3Client : JsValue)
    : Completion unit * World :=
  constructor_ web3Client new_object.

Definition setWeb3Client (web3Client : JsValue) : M unit :=
  try_ (client <- _createHttpClient web3Client ;;
        set__httpClient client ;;
        set_web3Client web3Client ;;
        _connectToClient FromSetWeb3Client)
  catch_ (fun error =>
    throw (Error_ ("Failed to set web3 client: " ++ message error))).

Definition supportsSubscriptions : bool := false.

(** ** The event loop *)

(** What happens to a provider: a caller invokes [request] or
    [setWeb3Client], or the transport settles the POST of a suspended
    invocation.  Each runs to completion before the next: there is one
    thread, every response is delivered in a task of its own, and the
    continuations it wakes ([request], then [_getChainId], then
    [_connectToClient]) run as microtasks of that task.  A call squeezed
    between two of these continuations only posts or rebinds the client,
    which none of them reads, so it may as well come before or after. *)
Inductive Input : Type :=
| CallRequest (args : RequestArguments)
| CallSetWeb3Client (web3Client : JsValue)
| PostSettles (rid : nat) (posted : Completion AxiosResponse).

Fixpoint awaiting (rid : nat) (l : list (nat * Awaiting)) : option Awaiting :=
  match l with
  | [] => None
  | (r, k) :: l' => if (r =? rid)%nat then Some k else awaiting rid l'
  end.

Definition resume (rid : nat) : M unit :=
  modify (fun w =>
    mkWorld (this w) (emitted w) (network w)
      (filter (fun p => negb (fst p =? rid)%nat) (pending w))
      (settled w) (unhandled w) (next_request w)).

(** A call of [request] from outside the provider. *)
Definition external_request (args : RequestArguments) : M unit :=
  fun w =>
    (requested <- settle (request args) ;;
     match requested with
     | Normal rid => suspend rid ExternalCaller
     | Throw e => hand_over (next_request w) (Throw e)
     end) w.

Definition post_settles (rid : nat) (posted : Completion AxiosResponse)
    (k : Awaiting) : M unit :=
  resume rid ;;
  requested <- settle (request_awaited posted) ;;
  match k with
  | ExternalCaller => hand_over rid requested
  | ChainIdProbe _ => probe_resumes requested
  end.

Definition step (i : Input) (w : World) : option World :=
  match i with
  | CallRequest args => Some (snd (external_request args w))
  | CallSetWeb3Client web3Client => Some (snd (setWeb3Client web3Client w))
  | PostSettles rid posted =>
      match awaiting rid (pending w) with
      | Some k => Some (snd (post_settles rid posted k w))
      | None => None
      end
  end.

Fixpoint run (inputs : list Input) (w : World) : option World :=
  match inputs with
  | [] => Some w
  | i :: inputs' =>
      match step i w with
      | Some w' => run inputs' w'
      | None => None
      end
  end.

(** The worlds a provider can be in: after a construction that returned,
    and after any input from there. *)
Inductive reachable : World -> Prop :=
| reachable_new web3Client w :
    new_Web3ProvidersHttp web3Client = (Normal tt, w) ->
    reachable w
| reachable_step i w w' :
    reachable w ->
    step i w = Some w' ->
    reachable w'.

(** ** Vocabulary of the statements *)

(** [error.code === 'ECONNREFUSED'] *)
Definition refused (error : JsError) : bool :=
  strict_eq (code error) (JString "ECONNREFUSED").

(** What [request] returns for a body whose properties can be read:
    [response.data.data ? response.data.data : response.data]. *)
Definition unwrap (body : JsValue) : JsValue :=
  if truthy (property body "data") then property body "data" else body.

(** The unwrapping rule in the spec's words, to compare [unwrap] with: the
    nested [data] field when the body has one, the body otherwise. *)
Definition unwrap_as_specified (body : JsValue) : JsValue :=
  match body with
  | JObject defs =>
      match props_get "data" (own_props defs) with
      | Some nested => nested
      | None => body
      end
  | _ => body
  end.

(** The chain id a probe takes from the answer to its POST:
    [result.result]. *)
Definition chainId_of (response : AxiosResponse) : JsValue :=
  property (unwrap (data response)) "result".

(** The invocation of [request] whose POST settled as [posted] rejects:
    the transport failed, or the body is [null] or [undefined] and reading
    [response.data.data] throws. *)
Definition request_fails (posted : Completion AxiosResponse) : bool :=
  match posted with
  | Normal response => nullish (data response)
  | Throw _ => true
  end.

(** The failure underneath a rejected invocation: the transport's error, or
    the [TypeError] of the property read. *)
Definition underlying (posted : Completion AxiosResponse) : JsError :=
  match posted with
  | Normal response => Error_ (TypeError_message host (data response) "data")
  | Throw error => error
  end.

(** The chain-id probe awaited by [k] succeeds when the POST settles as
    [posted]: [_getChainId] returns and [_connectToClient] goes on. *)
Definition probe_succeeds (k : Awaiting) (posted : Completion AxiosResponse)
    : bool :=
  match k with
  | ChainIdProbe _ => negb (request_fails posted)
  | ExternalCaller => false
  end.

(** Whether [_connectToClient], observing [chainId], emits ChainChanged:
    [this._clientChainId !== undefined && chainId !== this._clientChainId]. *)
Definition chain_changed (chainId : JsValue) (w : World) : bool :=
  strict_neq (_clientChainId (this w)) JUndefined
  && strict_neq chainId (_clientChainId (this w)).

(** The POST was rejected with the connection-refused code. *)
Definition post_refused (posted : Completion AxiosResponse) : bool :=
  match posted with
  | Normal _ => false
  | Throw error => refused error
  end.

Definition Disconnect_4900 : Web3ProviderEvents * JsValue :=
  (Disconnect, JObject [("code", JNumber 4900)]).

Definition Connect_with (chainId : JsValue) : Web3ProviderEvents * JsValue :=
  (Connect, JObject [("chainId", chainId)]).

Definition is_Connect (e : Web3ProviderEvents * JsValue) : bool :=
  Web3ProviderEvents_eqb (fst e) Connect.

Definition is_ChainChanged (e : Web3ProviderEvents * JsValue) : bool :=
  Web3ProviderEvents_eqb (fst e) ChainChanged.


(** An input that belongs to a call of [request]: the call, or the
    settlement of a POST. *)
Definition of_request (i : Input) : bool :=
  match i with
  | CallRequest _ | PostSettles _ _ => true
  | CallSetWeb3Client _ => false
  end.

(** The POSTs made by the invocation [rid] of [request]. *)
Definition posts_of (rid : nat) (w : World) : list PostCall :=
  filter (fun p => (post_request p =? rid)%nat) (network w).

(** The world after the [catch] block of [request] has disconnected. *)
Definition disconnect (w : World) : World :=
  snd ((set__connected false ;;
        emit Disconnect (JObject [("code", JNumber 4900)])) w).

(** The world after [request] has posted for [args] through [client]. *)
Definition posting (client : AxiosInstance) (args : RequestArguments)
    (w : World) : World :=
  snd ((rid <- enter_request ;;
        axios_post rid client "" (request_data args) (request_config args)) w).

(** The message of the rejection nobody handles when a probe's [request]
    rejected with [error]. *)
Definition probe_failure (error : JsError) : JsError :=
  Error_ ("Error connecting to client: "
          ++ message (Error_ ("Error getting chain id: " ++ message error))
          ++ newline
          ++ stack (Error_ ("Error getting chain id: " ++ message error))).

(** The world after [_connectToClient] has resumed with [chainId]. *)
Definition connect (chainId : JsValue) (w : World) : World :=
  snd (_connectToClient_awaited (Normal chainId) w).


(** The invocations of [request] are numbered without repetition: the
    POSTs and the suspended invocations carry numbers already given out,
    and no two POSTs carry the same. *)
Definition numbered (w : World) : Prop :=
  Forall (fun p => post_request p < next_request w) (network w)
  /\ NoDup (map post_request (network w))
  /\ Forall (fun e => fst e < next_request w) (pending w).

(** From [w] to [w'] at most one invocation of [request] began: numbers
    are only given out, an invocation newly suspended and a POST newly
    made carry the number given out. *)
Definition grows (w w' : World) : Prop :=
  next_request w <= next_request w'
  /\ (forall e, In e (pending w') ->
        In e (pending w)
        \/ (fst e = next_request w /\ next_request w < next_request w'))
  /\ (network w' = network w
      \/ exists p, network w' = network w ++ [p]
                   /\ post_request p = next_request w
                   /\ next_request w < next_request w').

(** ** Vocabulary of the further statements *)

(** The POST of a chain-id probe: [{ method: 'eth_chainId', params: [] }]
    to the empty path, with the empty configuration. *)
Definition eth_chainId_post (rid : nat) (client : AxiosInstance) : PostCall :=
  mkPost rid client ""
    (JObject [("method", JString "eth_chainId"); ("params", JArray [])])
    (JObject []).

(** What a listener that follows the Connect and Disconnect events takes
    the connection to be, starting from [b]. *)
Definition connection_after (b : bool) (e : Web3ProviderEvents * JsValue)
    : bool :=
  match fst e with
  | Connect => true
  | Disconnect => false
  | ChainChanged | Message => b
  end.

Definition connection_of_log (log : list (Web3ProviderEvents * JsValue))
    : bool :=
  fold_left connection_after log false.

(** The chain id that a listener of the Connect events has seen last. *)
Definition chainId_after (c : JsValue) (e : Web3ProviderEvents * JsValue)
    : JsValue :=
  match fst e with
  | Connect => property (snd e) "chainId"
  | Disconnect | ChainChanged | Message => c
  end.

Definition chainId_of_log (log : list (Web3ProviderEvents * JsValue))
    : JsValue :=
  fold_left chainId_after log JUndefined.

(** Every ChainChanged event of [log] comes right after a Connect event
    that carries the same chain id; [before] is the event before [log]. *)
Fixpoint announced (before : option (Web3ProviderEvents * JsValue))
    (log : list (Web3ProviderEvents * JsValue)) : Prop :=
  match log with
  | [] => True
  | e :: log' =>
      (fst e = ChainChanged -> before = Some (Connect_with (snd e)))
      /\ announced (Some e) log'
  end.

Definition last_event (before : option (Web3ProviderEvents * JsValue))
    (log : list (Web3ProviderEvents * JsValue))
    : option (Web3ProviderEvents * JsValue) :=
  fold_left (fun _ e => Some e) log before.

(** The provider holds a client for its endpoint, and the endpoint is a
    string that passes the URL test. *)
Definition bound (w : World) : Prop :=
  exists url,
    has_http_scheme url = true
    /\ _httpClient (this w) = Some (mkAxios (JString url))
    /\ web3Client (this w) = JString url.

(** The settlement of a call of [request] whose POST settled as [posted],
    as the caller sees it. *)
Definition outcome (posted : Completion AxiosResponse) : Completion JsValue :=
  match posted with
  | Normal response =>
      if nullish (data response)
      then Throw (Error_ (TypeError_message host (data response) "data"))
      else Normal (unwrap (data response))
  | Throw error => Throw (Error_ (message error))
  end.

End Provider.

(** ** Sample data *)

(** A host for running the program on examples: a logger that keeps the
    message it is given, an engine with empty stack texts. *)
Definition sample_host : Host :=
  mkHost (fun _ msg _ => mkError JUndefined msg "")
         (fun _ => "")
         (fun _ _ => "Cannot read properties of null").

Definition answers (body : JsValue) : Completion AxiosResponse :=
  Normal (mkResponse body).

Definition ECONNREFUSED : Completion AxiosResponse :=
  Throw (mkError (JString "ECONNREFUSED") "connect ECONNREFUSED" "").

Definition ETIMEDOUT : Completion AxiosResponse :=
  Throw (mkError (JString "ETIMEDOUT") "timeout" "").

Definition chain_0x1 : JsValue := JObject [("result", JString "0x1")].

Definition chain_0x2 : JsValue := JObject [("result", JString "0x2")].

Definition started : World :=
  snd (new_Web3ProvidersHttp sample_host (JString "http://localhost:8545")).

Definition after (inputs : list Input) : World :=
  match run sample_host inputs started with
  | Some w => w
  | None => started
  end.

Definition other_endpoint : JsValue := JString "http://other:8545".

Definition sum_args : RequestArguments :=
  mkArgs "sum" (ParamsObject [("a", JNumber 1); ("b", JNumber 2)])
    (Some [("id", JNumber 7); ("params", JNull)]) None.

Definition empty_body : JsValue := JObject [].

Definition named_args : RequestArguments :=
  mkArgs "eth_call"
    (ParamsObject [("to", JString "0xabc"); ("data", JString "0x")])
    (Some [("jsonrpc", JString "2.0"); ("id", JNumber 7);
           ("method", JString "ignored")])
    (Some (mkProviderOptions (JObject [("timeout", JNumber 1000)]))).

Definition eth_blockNumber : RequestArguments :=
  mkArgs "eth_blockNumber" ParamsUndefined None None.

(** ** Symbolic execution of the methods *)

Ltac js_unfold :=
  unfold connect, disconnect, posting, probe_failure,
    step, post_settles, external_request, setWeb3Client,
    new_Web3ProvidersHttp, constructor_,
    request_awaited, _connectToClient, probe_resumes,
    _connectToClient_awaited, _getChainId_awaited, request, request_catch,
    _createHttpClient, _validateClientUrl, get_property, resume, suspend,
    hand_over, unhandledRejection, axios_post, enter_request, emit,
    set__httpClient, set__clientChainId, set__connected, set_web3Client,
    modify, get_this, await, settle, try_catch, bind, throw, ret, with_this
    in *.

Create Rewrite HintDb js_frame.

Section Properties.

Variable host : Host.

(** *** What each method amounts to *)

Lemma request_catch_eq A (error : JsError) (w : World) :
  @request_catch host A error w =
  (Throw (Error_ host (message error)),
   if refused error && _connected (this w) then disconnect w else w).
Proof.
  js_unfold. unfold refused.
  destruct (strict_eq (code error) (JString "ECONNREFUSED")
            && _connected (this w)); reflexivity.
Qed.

Lemma request_eq (args : RequestArguments) (w : World) :
  request host args w =
  match _httpClient (this w) with
  | Some client => (Normal (next_request w), posting client args w)
  | None =>
      (Throw (Error_ host "No HTTP client initiliazed"),
       snd (enter_request w))
  end.
Proof.
  js_unfold. cbn. destruct (_httpClient (this w)); reflexivity.
Qed.

Lemma _connectToClient_eq (origin : ProbeOrigin) (w : World) :
  _connectToClient host origin w =
  (Normal tt,
   match _httpClient (this w) with
   | Some client =>
       snd (suspend (next_request w) (ChainIdProbe origin)
              (posting client eth_chainId w))
   | None =>
       snd (unhandledRejection
              (probe_failure host (Error_ host "No HTTP client initiliazed"))
              (snd (enter_request w)))
   end).
Proof.
  js_unfold. cbn. destruct (_httpClient (this w)); reflexivity.
Qed.

Lemma request_awaited_rejected (error : JsError) (w : World) :
  request_awaited host (Throw error) w = request_catch host error w.
Proof. reflexivity. Qed.

Lemma request_awaited_answered (response : AxiosResponse) (w : World) :
  request_awaited host (Normal response) w =
  let w1 := if _connected (this w) then w
            else snd (_connectToClient host FromRequest w) in
  if nullish (data response)
  then (Throw (Error_ host (TypeError_message host (data response) "data")),
        w1)
  else (Normal (unwrap (data response)), w1).
Proof.
  js_unfold. unfold unwrap. cbn.
  destruct (_connected (this w)) eqn:Hc, (_httpClient (this w)) eqn:Hh,
    (nullish (data response)) eqn:Hn; cbn; rewrite ?Hc, ?Hh; cbn;
    try reflexivity;
    destruct (truthy (property (data response) "data")); reflexivity.
Qed.

Lemma probe_resumes_rejected (error : JsError) (w : World) :
  probe_resumes host (Throw error) w =
  (Normal tt, snd (unhandledRejection (probe_failure host error) w)).
Proof. reflexivity. Qed.

Lemma probe_resumes_answered (result : JsValue) (w : World) :
  nullish result = false ->
  probe_resumes host (Normal result) w =
  (Normal tt, connect host (property result "result") w).
Proof.
  intros H. js_unfold. cbn. rewrite H. cbn.
  destruct (strict_neq _ _ && _); cbn; reflexivity.
Qed.

Lemma unwrap_not_nullish (body : JsValue) :
  nullish body = false -> nullish (unwrap body) = false.
Proof.
  intros H. unfold unwrap.
  destruct (truthy (property body "data")) eqn:E; [|exact H].
  destruct (property body "data"); try reflexivity; discriminate.
Qed.

Lemma request_awaited_fst (posted : Completion AxiosResponse) (w : World) :
  fst (request_awaited host posted w) =
  match posted with
  | Normal response =>
      if nullish (data response)
      then Throw (Error_ host (TypeError_message host (data response) "data"))
      else Normal (unwrap (data response))
  | Throw error => Throw (Error_ host (message error))
  end.
Proof.
  destruct posted as [response|error].
  - rewrite request_awaited_answered. cbn.
    destruct (nullish (data response)); reflexivity.
  - rewrite request_awaited_rejected, request_catch_eq. reflexivity.
Qed.

Lemma request_awaited_snd (posted : Completion AxiosResponse) (w : World) :
  snd (request_awaited host posted w) =
  match posted with
  | Normal _ =>
      if _connected (this w) then w
      else snd (_connectToClient host FromRequest w)
  | Throw error =>
      if refused error && _connected (this w) then disconnect w else w
  end.
Proof.
  destruct posted as [response|error].
  - rewrite request_awaited_answered. cbn.
    destruct (nullish (data response)); reflexivity.
  - rewrite request_awaited_rejected, request_catch_eq. reflexivity.
Qed.

Lemma post_settles_eq (rid : nat) (posted : Completion AxiosResponse)
    (k : Awaiting) (w : World) :
  snd (post_settles host rid posted k w) =
  match k with
  | ExternalCaller =>
      snd (hand_over rid
             (fst (request_awaited host posted (snd (resume rid w))))
             (snd (request_awaited host posted (snd (resume rid w)))))
  | ChainIdProbe _ =>
      snd (probe_resumes host
             (fst (request_awaited host posted (snd (resume rid w))))
             (snd (request_awaited host posted (snd (resume rid w)))))
  end.
Proof.
  unfold post_settles, bind, settle. cbn.
  destruct (request_awaited host posted _) as [r w1]. cbn.
  destruct k; reflexivity.
Qed.

Lemma step_PostSettles (rid : nat) (posted : Completion AxiosResponse)
    (w w' : World) :
  step host (PostSettles rid posted) w = Some w' ->
  exists k, awaiting rid (pending w) = Some k /\
    w' = snd (post_settles host rid posted k w).
Proof.
  cbn. destruct (awaiting rid (pending w)) as [k|]; [|discriminate].
  intros H. inversion H. eauto.
Qed.

(** *** Bookkeeping leaves the provider and its events alone *)

Lemma resume_this (rid : nat) (w : World) : this (snd (resume rid w)) = this w.
Proof. reflexivity. Qed.

Lemma resume_emitted (rid : nat) (w : World) :
  emitted (snd (resume rid w)) = emitted w.
Proof. reflexivity. Qed.

Lemma hand_over_this (rid : nat) (r : Completion JsValue) (w : World) :
  this (snd (hand_over rid r w)) = this w.
Proof. reflexivity. Qed.

Lemma hand_over_emitted (rid : nat) (r : Completion JsValue) (w : World) :
  emitted (snd (hand_over rid r w)) = emitted w.
Proof. reflexivity. Qed.

Lemma unhandledRejection_this (e : JsError) (w : World) :
  this (snd (unhandledRejection e w)) = this w.
Proof. reflexivity. Qed.

Lemma unhandledRejection_emitted (e : JsError) (w : World) :
  emitted (snd (unhandledRejection e w)) = emitted w.
Proof. reflexivity. Qed.

Lemma disconnect_this (w : World) :
  this (disconnect w) =
  mkProvider (_httpClient (this w)) (_clientChainId (this w)) false
    (web3Client (this w)).
Proof. reflexivity. Qed.

Lemma disconnect_emitted (w : World) :
  emitted (disconnect w) = emitted w ++ [Disconnect_4900].
Proof. reflexivity. Qed.

Lemma connect_this (chainId : JsValue) (w : World) :
  this (connect host chainId w) =
  mkProvider (_httpClient (this w)) chainId true (web3Client (this w)).
Proof.
  js_unfold. cbn. destruct (strict_neq _ _ && _); reflexivity.
Qed.

Lemma connect_emitted (chainId : JsValue) (w : World) :
  emitted (connect host chainId w) =
  emitted w ++ Connect_with chainId ::
    (if chain_changed chainId w then [(ChainChanged, chainId)] else []).
Proof.
  js_unfold. unfold chain_changed. cbn.
  destruct (strict_neq _ _ && _); cbn; [rewrite <- app_assoc|]; reflexivity.
Qed.

Lemma _connectToClient_this (origin : ProbeOrigin) (w : World) :
  this (snd (_connectToClient host origin w)) = this w.
Proof.
  rewrite _connectToClient_eq. cbn. destruct (_httpClient (this w)); reflexivity.
Qed.

Lemma _connectToClient_emitted (origin : ProbeOrigin) (w : World) :
  emitted (snd (_connectToClient host origin w)) = emitted w.
Proof.
  rewrite _connectToClient_eq. cbn. destruct (_httpClient (this w)); reflexivity.
Qed.

#[local] Hint Rewrite resume_this resume_emitted hand_over_this hand_over_emitted
  unhandledRejection_this unhandledRejection_emitted disconnect_this
  disconnect_emitted connect_this connect_emitted _connectToClient_this
  _connectToClient_emitted : js_frame.

(** The world in which [request] goes on after its [await], as far as the
    provider and the events go. *)
Lemma request_awaited_this (posted : Completion AxiosResponse) (w : World) :
  this (snd (request_awaited host posted w)) =
  if post_refused posted && _connected (this w)
  then mkProvider (_httpClient (this w)) (_clientChainId (this w)) false
         (web3Client (this w))
  else this w.
Proof.
  rewrite request_awaited_snd. destruct posted as [response|error]; cbn.
  - destruct (_connected (this w)); now autorewrite with js_frame.
  - destruct (refused error && _connected (this w)); reflexivity.
Qed.

Lemma request_awaited_emitted (posted : Completion AxiosResponse) (w : World) :
  emitted (snd (request_awaited host posted w)) =
  emitted w ++
  if post_refused posted && _connected (this w) then [Disconnect_4900] else [].
Proof.
  rewrite request_awaited_snd. destruct posted as [response|error]; cbn.
  - destruct (_connected (this w)); autorewrite with js_frame;
      now rewrite app_nil_r.
  - destruct (refused error && _connected (this w)); cbn;
      now rewrite ?app_nil_r.
Qed.

(** *** The provider and the events after each input *)

Lemma answered_this (rid : nat) (response : AxiosResponse) (k : Awaiting)
    (w : World) :
  this (snd (post_settles host rid (Normal response) k w)) =
  if probe_succeeds k (Normal response)
  then mkProvider (_httpClient (this w)) (chainId_of response) true
         (web3Client (this w))
  else this w.
Proof.
  rewrite post_settles_eq, request_awaited_fst.
  destruct k as [|origin]; cbn [probe_succeeds request_fails negb].
  - now rewrite hand_over_this, request_awaited_this.
  - destruct (nullish (data response)) eqn:Hn; cbn [negb].
    + rewrite probe_resumes_rejected. cbn [snd].
      now rewrite unhandledRejection_this, request_awaited_this.
    + rewrite probe_resumes_answered by now apply unwrap_not_nullish.
      cbn [snd]. now rewrite connect_this, request_awaited_this.
Qed.

Lemma answered_emitted (rid : nat) (response : AxiosResponse) (k : Awaiting)
    (w : World) :
  emitted (snd (post_settles host rid (Normal response) k w)) =
  emitted w ++
  if probe_succeeds k (Normal response)
  then Connect_with (chainId_of response) ::
         (if chain_changed (chainId_of response) w
          then [(ChainChanged, chainId_of response)] else [])
  else [].
Proof.
  rewrite post_settles_eq, request_awaited_fst.
  destruct k as [|origin]; cbn [probe_succeeds request_fails negb].
  - now rewrite hand_over_emitted, request_awaited_emitted.
  - destruct (nullish (data response)) eqn:Hn; cbn [negb].
    + rewrite probe_resumes_rejected. cbn [snd].
      now rewrite unhandledRejection_emitted, request_awaited_emitted.
    + rewrite probe_resumes_answered by now apply unwrap_not_nullish.
      cbn [snd]. rewrite connect_emitted, request_awaited_emitted.
      unfold chain_changed. rewrite request_awaited_this.
      cbn [post_refused andb]. now rewrite app_nil_r.
Qed.

Lemma rejected_this (rid : nat) (error : JsError) (k : Awaiting) (w : World) :
  this (snd (post_settles host rid (Throw error) k w)) =
  if refused error && _connected (this w)
  then mkProvider (_httpClient (this w)) (_clientChainId (this w)) false
         (web3Client (this w))
  else this w.
Proof.
  rewrite post_settles_eq, request_awaited_fst.
  destruct k as [|origin].
  - now rewrite hand_over_this, request_awaited_this.
  - rewrite probe_resumes_rejected. cbn [snd].
    now rewrite unhandledRejection_this, request_awaited_this.
Qed.

Lemma rejected_emitted (rid : nat) (error : JsError) (k : Awaiting)
    (w : World) :
  emitted (snd (post_settles host rid (Throw error) k w)) =
  emitted w ++
  if refused error && _connected (this w) then [Disconnect_4900] else [].
Proof.
  rewrite post_settles_eq, request_awaited_fst.
  destruct k as [|origin].
  - now rewrite hand_over_emitted, request_awaited_emitted.
  - rewrite probe_resumes_rejected. cbn [snd].
    now rewrite unhandledRejection_emitted, request_awaited_emitted.
Qed.

Lemma external_request_this (args : RequestArguments) (w : World) :
  this (snd (external_request host args w)) = this w.
Proof.
  unfold external_request, bind, settle. rewrite request_eq.
  destruct (_httpClient (this w)); reflexivity.
Qed.

Lemma external_request_emitted (args : RequestArguments) (w : World) :
  emitted (snd (external_request host args w)) = emitted w.
Proof.
  unfold external_request, bind, settle. rewrite request_eq.
  destruct (_httpClient (this w)); reflexivity.
Qed.

Lemma setWeb3Client_eq (web3Client : JsValue) (w : World) :
  setWeb3Client host web3Client w =
  if is_http_url web3Client
  then _connectToClient host FromSetWeb3Client
         (snd ((set__httpClient (mkAxios web3Client) ;;
                set_web3Client web3Client)%js w))
  else (Throw (Error_ host
                 ("Failed to set web3 client: "
                  ++ message (makeError host invalidClientUrl
                                "Provided web3Client is an invalid HTTP(S) URL"
                                web3Client))),
        w).
Proof.
  unfold setWeb3Client, _createHttpClient, _validateClientUrl, try_catch, bind.
  destruct (is_http_url web3Client); [|reflexivity].
  unfold throw, ret, set__httpClient, set_web3Client, modify. cbn [fst snd].
  rewrite !_connectToClient_eq. reflexivity.
Qed.

Lemma setWeb3Client_this (web3Client : JsValue) (w : World) :
  this (snd (setWeb3Client host web3Client w)) =
  if is_http_url web3Client
  then mkProvider (Some (mkAxios web3Client)) (_clientChainId (this w))
         (_connected (this w)) web3Client
  else this w.
Proof.
  rewrite setWeb3Client_eq. destruct (is_http_url web3Client); [|reflexivity].
  rewrite _connectToClient_this. reflexivity.
Qed.

Lemma setWeb3Client_emitted (web3Client : JsValue) (w : World) :
  emitted (snd (setWeb3Client host web3Client w)) = emitted w.
Proof.
  rewrite setWeb3Client_eq. destruct (is_http_url web3Client); [|reflexivity].
  rewrite _connectToClient_emitted. reflexivity.
Qed.

Lemma new_Web3ProvidersHttp_eq (web3Client : JsValue) :
  new_Web3ProvidersHttp host web3Client =
  if is_http_url web3Client
  then _connectToClient host FromConstructor
         (snd ((set__httpClient (mkAxios web3Client) ;;
                set_web3Client web3Client)%js new_object))
  else (Throw (makeError host invalidClientUrl
                 "Provided web3Client is an invalid HTTP(S) URL" web3Client),
        new_object).
Proof.
  unfold new_Web3ProvidersHttp, constructor_, _createHttpClient,
    _validateClientUrl, try_catch, bind.
  destruct (is_http_url web3Client); reflexivity.
Qed.

(** *** Facts about [===] *)

Lemma strict_eq_undefined (v : JsValue) :
  strict_eq v JUndefined = true <-> v = JUndefined.
Proof.
  destruct v; cbn; split; intros H; try reflexivity; discriminate.
Qed.

Lemma strict_eq_strings (a b : string) :
  strict_eq (JString a) (JString b) = true <-> a = b.
Proof. cbn. apply String.eqb_eq. Qed.

Lemma chain_changed_iff (chainId : JsValue) (w : World) :
  chain_changed chainId w = true <->
  _clientChainId (this w) <> JUndefined
  /\ strict_eq chainId (_clientChainId (this w)) = false.
Proof.
  unfold chain_changed, strict_neq.
  rewrite andb_true_iff, !negb_true_iff.
  split; intros [H1 H2]; split; trivial.
  - intros E. apply strict_eq_undefined in E. congruence.
  - destruct (strict_eq (_clientChainId (this w)) JUndefined) eqn:E; trivial.
    apply strict_eq_undefined in E. contradiction.
Qed.

(** ** The connection-state machine *)

(** C1: the connected flag starts [false]; an input turns it from [false]
    to [true] only when it settles the POST of a chain-id probe that
    succeeds, and every such settlement leaves it [true]; an input turns it
    from [true] to [false] only when it settles a POST that was rejected
    with the connection-refused code, and every such settlement while
    connected leaves it [false].  The inputs are the calls of [request] and
    [setWeb3Client] and the settlements: none assigns the flag. *)
Theorem connected_flag_transitions :
  (forall web3Client w,
      new_Web3ProvidersHttp host web3Client = (Normal tt, w) ->
      _connected (this w) = false)
  /\ (forall i w w',
      step host i w = Some w' ->
      _connected (this w) = false -> _connected (this w') = true ->
      exists rid response k,
        i = PostSettles rid (Normal response)
        /\ awaiting rid (pending w) = Some k
        /\ probe_succeeds k (Normal response) = true)
  /\ (forall rid response k w w',
      step host (PostSettles rid (Normal response)) w = Some w' ->
      awaiting rid (pending w) = Some k ->
      probe_succeeds k (Normal response) = true ->
      _connected (this w') = true)
  /\ (forall i w w',
      step host i w = Some w' ->
      _connected (this w) = true -> _connected (this w') = false ->
      exists rid error k,
        i = PostSettles rid (Throw error)
        /\ awaiting rid (pending w) = Some k
        /\ refused error = true)
  /\ (forall rid error w w',
      step host (PostSettles rid (Throw error)) w = Some w' ->
      refused error = true -> _connected (this w) = true ->
      _connected (this w') = false).
Proof.
  repeat split.
  - intros web3Client w. rewrite new_Web3ProvidersHttp_eq.
    destruct (is_http_url web3Client); [|discriminate].
    intros H. apply (f_equal snd) in H. cbn [snd] in H. subst w.
    now rewrite _connectToClient_this.
  - intros [args|web3Client|rid [response|error]] w w' H Hoff Hon.
    + inversion H; subst w'. rewrite external_request_this in Hon. congruence.
    + inversion H; subst w'. rewrite setWeb3Client_this in Hon.
      destruct (is_http_url web3Client); cbn in Hon; congruence.
    + apply step_PostSettles in H. destruct H as (k & Hk & ->).
      exists rid, response, k. repeat split; trivial.
      rewrite answered_this in Hon.
      destruct (probe_succeeds k (Normal response)); [reflexivity|congruence].
    + apply step_PostSettles in H. destruct H as (k & Hk & ->).
      rewrite rejected_this in Hon. rewrite Hoff, andb_false_r in Hon.
      congruence.
  - intros rid response k w w' H Hk Hp.
    apply step_PostSettles in H. destruct H as (k' & Hk' & ->).
    assert (k' = k) by congruence. subst k'.
    now rewrite answered_this, Hp.
  - intros [args|web3Client|rid [response|error]] w w' H Hon Hoff.
    + inversion H; subst w'. rewrite external_request_this in Hoff. congruence.
    + inversion H; subst w'. rewrite setWeb3Client_this in Hoff.
      destruct (is_http_url web3Client); cbn in Hoff; congruence.
    + apply step_PostSettles in H. destruct H as (k & Hk & ->).
      rewrite answered_this in Hoff.
      destruct (probe_succeeds k (Normal response)); cbn in Hoff; congruence.
    + apply step_PostSettles in H. destruct H as (k & Hk & ->).
      exists rid, error, k. repeat split; trivial.
      rewrite rejected_this, Hon, andb_true_r in Hoff.
      destruct (refused error); [reflexivity|congruence].
  - intros rid error w w' H Hr Hon.
    apply step_PostSettles in H. destruct H as (k & Hk & ->).
    now rewrite rejected_this, Hr, Hon.
Qed.

(** C2: when the POST of a [request] call is rejected with the
    connection-refused code while connected is [true], connected becomes
    [false] and exactly one Disconnect event with payload [{ code: 4900 }]
    is emitted; a connection-refused rejection settled right after it
    emits nothing. *)
Theorem connection_refused_disconnects_once
    (rid1 rid2 : nat) (e1 e2 : JsError) (w w1 w2 : World) :
  _connected (this w) = true ->
  refused e1 = true ->
  refused e2 = true ->
  step host (PostSettles rid1 (Throw e1)) w = Some w1 ->
  step host (PostSettles rid2 (Throw e2)) w1 = Some w2 ->
  _connected (this w1) = false
  /\ emitted w1 = emitted w ++ [Disconnect_4900]
  /\ _connected (this w2) = false
  /\ emitted w2 = emitted w1.
Proof.
  intros Hon Hr1 Hr2 H1 H2.
  apply step_PostSettles in H1. destruct H1 as (k1 & Hk1 & ->).
  apply step_PostSettles in H2. destruct H2 as (k2 & Hk2 & ->).
  assert (Hoff : _connected
            (this (snd (post_settles host rid1 (Throw e1) k1 w))) = false)
    by now rewrite rejected_this, Hr1, Hon.
  repeat split.
  - exact Hoff.
  - now rewrite rejected_emitted, Hr1, Hon.
  - rewrite rejected_this, Hoff, andb_false_r. exact Hoff.
  - now rewrite (rejected_emitted rid2), Hoff, andb_false_r, app_nil_r.
Qed.

(** C7: when a chain-id probe succeeds, a ChainChanged event carrying the
    chain id just observed is emitted if and only if a chain id was stored
    before ([_clientChainId !== undefined]) and the new one differs from it
    ([!==]); no other ChainChanged event is emitted; and the chain id just
    observed is the stored one afterwards. *)
Theorem ChainChanged_on_probe
    (rid : nat) (response : AxiosResponse) (k : Awaiting) (w w' : World) :
  step host (PostSettles rid (Normal response)) w = Some w' ->
  awaiting rid (pending w) = Some k ->
  probe_succeeds k (Normal response) = true ->
  exists new,
    emitted w' = emitted w ++ new
    /\ (In (ChainChanged, chainId_of response) new <->
        _clientChainId (this w) <> JUndefined
        /\ strict_eq (chainId_of response) (_clientChainId (this w)) = false)
    /\ filter is_ChainChanged new =
       (if chain_changed (chainId_of response) w
        then [(ChainChanged, chainId_of response)] else [])
    /\ _clientChainId (this w') = chainId_of response.
Proof.
  intros H Hk Hp.
  apply step_PostSettles in H. destruct H as (k' & Hk' & ->).
  assert (k' = k) by congruence. subst k'.
  eexists. split; [|split; [|split]].
  - rewrite answered_emitted, Hp. reflexivity.
  - rewrite <- chain_changed_iff.
    destruct (chain_changed (chainId_of response) w); cbn.
    + split; auto.
    + split; [|discriminate]. intros [E|[]]. discriminate.
  - destruct (chain_changed (chainId_of response) w); reflexivity.
  - now rewrite answered_this, Hp.
Qed.

(** ** What [request] changes *)

(** C9: a call of [request] changes no field of the provider before its
    POST is under way; from its [await] on, whether it returns or throws,
    it leaves the HTTP client handle, the stored endpoint and the stored
    chain id as they were; and every input that belongs to a call of
    [request] (the call, or the settlement of a POST, with the probe
    continuation it may resume) leaves the HTTP client handle and the
    stored endpoint as they were. *)
Theorem request_keeps_endpoint_and_client :
  (forall args w, this (snd (request host args w)) = this w)
  /\ (forall posted w,
      _httpClient (this (snd (request_awaited host posted w)))
        = _httpClient (this w)
      /\ web3Client (this (snd (request_awaited host posted w)))
        = web3Client (this w)
      /\ _clientChainId (this (snd (request_awaited host posted w)))
        = _clientChainId (this w))
  /\ (forall i w w',
      step host i w = Some w' ->
      of_request i = true ->
      _httpClient (this w') = _httpClient (this w)
      /\ web3Client (this w') = web3Client (this w)).
Proof.
  split; [|split].
  - intros args w. rewrite request_eq.
    destruct (_httpClient (this w)); reflexivity.
  - intros posted w. rewrite request_awaited_this.
    destruct (post_refused posted && _connected (this w)); auto.
  - intros [args|web3Client|rid [response|error]] w w' H Hi;
      try discriminate.
    + inversion H; subst w'. now rewrite external_request_this.
    + apply step_PostSettles in H. destruct H as (k & Hk & ->).
      rewrite answered_this.
      destruct (probe_succeeds k (Normal response)); auto.
    + apply step_PostSettles in H. destruct H as (k & Hk & ->).
      rewrite rejected_this.
      destruct (refused error && _connected (this w)); auto.
Qed.

(** C10: when a call of [request] fails otherwise than by a
    connection-refused rejection while connected is [true], the provider
    (connected flag, stored chain id, endpoint, client handle) is after the
    failure exactly as it was before it: for the call that throws before
    posting, for the continuation of [request] itself, and for the whole
    settlement of the POST, whoever awaits the call. *)
Theorem failed_request_preserves_provider :
  (forall args w e,
      fst (request host args w) = Throw e ->
      this (snd (request host args w)) = this w)
  /\ (forall posted w,
      request_fails posted = true ->
      post_refused posted && _connected (this w) = false ->
      this (snd (request_awaited host posted w)) = this w)
  /\ (forall rid posted w w',
      step host (PostSettles rid posted) w = Some w' ->
      request_fails posted = true ->
      post_refused posted && _connected (this w) = false ->
      this w' = this w).
Proof.
  split; [|split].
  - intros args w e _. rewrite request_eq.
    destruct (_httpClient (this w)); reflexivity.
  - intros posted w _ H. now rewrite request_awaited_this, H.
  - intros rid [response|error] w w' H Hf Hr.
    + apply step_PostSettles in H. destruct H as (k & Hk & ->).
      rewrite answered_this. cbn in Hf.
      destruct k; cbn; [reflexivity|]. now rewrite Hf.
    + apply step_PostSettles in H. destruct H as (k & Hk & ->).
      cbn in Hr. now rewrite rejected_this, Hr.
Qed.

(** ** Objects and their enumeration *)

Lemma props_get_set_same (k : string) (v : JsValue) (o : Props) :
  props_get k (props_set k v o) = Some v.
Proof.
  induction o as [|[k' v'] o IH]; cbn.
  - now rewrite String.eqb_refl.
  - destruct (k' =? k) eqn:E; cbn.
    + now rewrite String.eqb_refl.
    + now rewrite E.
Qed.

Lemma props_set_keys (k k' : string) (v : JsValue) (o : Props) :
  In k' (map fst (props_set k v o)) <-> k' = k \/ In k' (map fst o).
Proof.
  induction o as [|[k0 v0] o IH]; cbn.
  - intuition.
  - destruct (k0 =? k) eqn:E; cbn.
    + apply String.eqb_eq in E. subst k0. intuition.
    + rewrite IH. intuition.
Qed.

Lemma props_set_NoDup (k : string) (v : JsValue) (o : Props) :
  NoDup (map fst o) -> NoDup (map fst (props_set k v o)).
Proof.
  induction o as [|[k0 v0] o IH]; cbn; intros H.
  - constructor; [intros []|constructor].
  - inversion H as [|? ? Hn Hd]; subst.
    destruct (k0 =? k) eqn:E; cbn.
    + apply String.eqb_eq in E. subst k0. now constructor.
    + constructor; [|auto]. rewrite props_set_keys. intros [->|Hi].
      * now rewrite String.eqb_refl in E.
      * contradiction.
Qed.

Lemma props_define_NoDup (defs o : Props) :
  NoDup (map fst o) -> NoDup (map fst (props_define o defs)).
Proof.
  revert o. induction defs as [|[k v] defs IH]; cbn; intros o H; [exact H|].
  apply IH. now apply props_set_NoDup.
Qed.

Lemma own_props_NoDup (defs : Props) : NoDup (map fst (own_props defs)).
Proof. apply props_define_NoDup. constructor. Qed.

Lemma props_get_In (k : string) (v : JsValue) (o : Props) :
  NoDup (map fst o) -> In (k, v) o -> props_get k o = Some v.
Proof.
  induction o as [|[k0 v0] o IH]; cbn; intros Hd Hi; [contradiction|].
  inversion Hd as [|? ? Hn Hd']; subst.
  destruct Hi as [E|Hi].
  - inversion E; subst. now rewrite String.eqb_refl.
  - destruct (k0 =? k) eqn:E; [|auto].
    apply String.eqb_eq in E. subst k0.
    exfalso. apply Hn. now apply (in_map fst) in Hi.
Qed.

Lemma insert_index_In (e x : N * (string * JsValue))
    (l : list (N * (string * JsValue))) :
  In x (insert_index e l) <-> x = e \/ In x l.
Proof.
  induction l as [|e' l IH]; cbn.
  - intuition.
  - destruct (fst e <? fst e')%N; cbn; [intuition|].
    rewrite IH. intuition.
Qed.

Lemma sort_index_In (x : N * (string * JsValue))
    (l : list (N * (string * JsValue))) :
  In x (sort_index l) <-> In x l.
Proof.
  induction l as [|e l IH]; cbn; [reflexivity|].
  rewrite insert_index_In, IH. intuition.
Qed.

Lemma index_entries_In (x : N * (string * JsValue)) (o : Props) :
  In x (index_entries o) -> In (snd x) o.
Proof.
  induction o as [|[k v] o IH]; cbn; [trivial|].
  destruct (array_index k); cbn; [|auto].
  intros [<-|H]; cbn; auto.
Qed.

Lemma enumeration_In (kv : string * JsValue) (defs : Props) :
  In kv (enumeration defs) -> In kv (own_props defs).
Proof.
  unfold enumeration. rewrite in_app_iff, in_map_iff.
  intros [(x & <- & Hx)|H].
  - apply index_entries_In. now apply sort_index_In.
  - unfold named_entries in H. now apply filter_In in H.
Qed.

(** [Object.values(o)] lists [o[k]] for the keys [k] of [Object.keys(o)],
    in that order. *)
Lemma Object_values_keys (defs : Props) :
  Object_values defs = map (property (JObject defs)) (Object_keys defs).
Proof.
  unfold Object_values, Object_keys. rewrite map_map.
  apply map_ext_in. intros [k v] H. cbn.
  now rewrite (props_get_In k v) by
    (auto using own_props_NoDup, enumeration_In).
Qed.

Lemma props_define_app (o d1 d2 : Props) :
  props_define o (d1 ++ d2) = props_define (props_define o d1) d2.
Proof. apply fold_left_app. Qed.

Lemma request_data_params (args : RequestArguments) :
  property (request_data args) "params"
  = JArray (arrayParams (params args)).
Proof.
  unfold request_data, property, own_props.
  rewrite props_define_app. cbn [props_define fold_left fst snd].
  now rewrite props_get_set_same.
Qed.

(** ** Normalisation of requests and responses *)

(** C4: the POST that [request] makes carries, as [params], the sequence
    [arrayParams]: empty for [undefined]; the array itself for an array;
    for an object, its values in the order in which its keys are
    enumerated ([Object.keys]), so that [{ a: 1, b: 2 }] gives [[1, 2]]. *)
Theorem request_normalizes_params
    (args : RequestArguments) (client : AxiosInstance) (w : World) :
  _httpClient (this w) = Some client ->
  exists post sent,
    network (snd (request host args w)) = network w ++ [post]
    /\ property (post_data post) "params" = JArray sent
    /\ match params args with
       | ParamsUndefined => sent = []
       | ParamsArray items => sent = items
       | ParamsObject defs =>
           sent = map (property (JObject defs)) (Object_keys defs)
       end
    /\ arrayParams (ParamsObject [("a", JNumber 1); ("b", JNumber 2)])
       = [JNumber 1; JNumber 2].
Proof.
  intros Hc. rewrite request_eq, Hc.
  eexists. exists (arrayParams (params args)).
  split; [reflexivity|]. split; [apply request_data_params|]. split.
  - destruct (params args); cbn [arrayParams]; trivial.
    apply Object_values_keys.
  - reflexivity.
Qed.

(** C3 (amended): a call of [request] that returns was answered with a body
    that is neither [null] nor [undefined], and returns the body's [data]
    field when that field is truthy, the body itself otherwise; so
    [{ data: { result: "0x1" } }] gives [{ result: "0x1" }] and
    [{ result: "0x1" }] gives itself. *)
Theorem request_unwraps_truthy_data
    (posted : Completion AxiosResponse) (w : World) (result : JsValue) :
  fst (request_awaited host posted w) = Normal result ->
  (exists response,
      posted = Normal response
      /\ nullish (data response) = false
      /\ result = if truthy (property (data response) "data")
                  then property (data response) "data"
                  else data response)
  /\ fst (request_awaited host (answers (JObject [("data", chain_0x1)])) w)
     = Normal chain_0x1
  /\ fst (request_awaited host (answers chain_0x1) w) = Normal chain_0x1.
Proof.
  rewrite !request_awaited_fst. intros H. split; [|split; reflexivity].
  destruct posted as [response|error]; [|discriminate].
  exists response. destruct (nullish (data response)); [discriminate|].
  inversion H. auto.
Qed.

(** ** Validation of the endpoint *)

Lemma caseless_h : caseless "h".
Proof. intros c. destruct c as [[] [] [] [] [] [] [] []]; reflexivity. Qed.

Lemma caseless_t : caseless "t".
Proof. intros c. destruct c as [[] [] [] [] [] [] [] []]; reflexivity. Qed.

Lemma caseless_p : caseless "p".
Proof. intros c. destruct c as [[] [] [] [] [] [] [] []]; reflexivity. Qed.

Lemma caseless_s : caseless "s".
Proof. intros c. destruct c as [[] [] [] [] [] [] [] []]; reflexivity. Qed.

Lemma caseless_colon : caseless ":".
Proof. intros c. destruct c as [[] [] [] [] [] [] [] []]; reflexivity. Qed.

Lemma caseless_slash : caseless "/".
Proof. intros c. destruct c as [[] [] [] [] [] [] [] []]; reflexivity. Qed.

Lemma regex_test_lits (p s : string) :
  Forall caseless (list_ascii_of_string p) ->
  regex_test (lits p) s = starts_with p (lowercase s).
Proof.
  revert s. induction p as [|a p IH]; intros s H.
  - destruct s; reflexivity.
  - inversion H as [|? ? Ha Hp]; subst.
    destruct s as [|c s]; cbn; [reflexivity|].
    now rewrite Ha, IH.
Qed.

Lemma regex_test_opt (p : string) (c : ascii) (re : list RegexItem)
    (s : string) :
  regex_test (lits p ++ Opt c :: re) s
  = regex_test (lits p ++ Lit c :: re) s || regex_test (lits p ++ re) s.
Proof.
  revert s. induction p as [|a p IH]; intros s; cbn.
  - reflexivity.
  - destruct s as [|x s]; [reflexivity|].
    now rewrite IH, andb_orb_distrib_r.
Qed.

(** The regular expression accepts the strings that the spec describes. *)
Lemma regex_test_http_url (s : string) :
  regex_test http_url_regex s = has_http_scheme s.
Proof.
  change http_url_regex with (lits "http" ++ Opt "s" :: lits "://").
  rewrite regex_test_opt.
  change (lits "http" ++ Lit "s" :: lits "://") with (lits "https://").
  change (lits "http" ++ lits "://") with (lits "http://").
  unfold has_http_scheme.
  rewrite !regex_test_lits, orb_comm; [reflexivity| |];
    repeat constructor;
    auto using caseless_h, caseless_t, caseless_p, caseless_s,
      caseless_colon, caseless_slash.
Qed.

Lemma is_http_url_spec (web3Client : JsValue) :
  is_http_url web3Client = true <->
  exists s, web3Client = JString s /\ has_http_scheme s = true.
Proof.
  destruct web3Client; cbn [is_http_url];
    try (split; [discriminate|intros (s0 & E & _); discriminate]).
  rewrite regex_test_http_url. split.
  - eauto.
  - intros (s0 & E & H). now inversion E.
Qed.

(** C5 (amended): for a [web3Client] that is not a string matching
    [^https?://] without regard to case, construction throws the logger's
    [invalidClientUrl] error and leaves the object as the field
    initialisers made it, with no HTTP client handle and no endpoint;
    [setWeb3Client] throws a plain [Error] whose message is
    "Failed to set web3 client: " followed by the message of that
    [invalidClientUrl] error, and leaves the world, hence the bound handle
    and the stored endpoint, untouched. *)
Theorem invalid_url_is_rejected (web3Client : JsValue) (w : World) :
  (forall s, web3Client = JString s -> has_http_scheme s = false) ->
  new_Web3ProvidersHttp host web3Client
  = (Throw (makeError host invalidClientUrl
              "Provided web3Client is an invalid HTTP(S) URL" web3Client),
     new_object)
  /\ _httpClient (this new_object) = None
  /\ setWeb3Client host web3Client w
     = (Throw (Error_ host
                 ("Failed to set web3 client: "
                  ++ message (makeError host invalidClientUrl
                                "Provided web3Client is an invalid HTTP(S) URL"
                                web3Client))),
        w).
Proof.
  intros H.
  assert (E : is_http_url web3Client = false).
  { destruct (is_http_url web3Client) eqn:E; [|reflexivity].
    apply is_http_url_spec in E. destruct E as (s & -> & Hs).
    rewrite (H s eq_refl) in Hs. discriminate. }
  rewrite new_Web3ProvidersHttp_eq, setWeb3Client_eq, E. auto.
Qed.

(** Whatever the logger makes of it, the error that [setWeb3Client] throws
    for an invalid [web3Client] is not the logger's error. *)
Lemma setWeb3Client_wraps (web3Client : JsValue) (w : World) :
  is_http_url web3Client = false ->
  fst (setWeb3Client host web3Client w)
  <> Throw (makeError host invalidClientUrl
              "Provided web3Client is an invalid HTTP(S) URL" web3Client).
Proof.
  intros E. rewrite setWeb3Client_eq, E. cbn [fst]. intros H.
  inversion H as [Hm]. apply (f_equal message) in Hm. cbn in Hm.
  apply (f_equal String.length) in Hm. cbn in Hm. lia.
Qed.

(** ** Connect events *)

Lemma awaiting_app (rid : nat) (k : Awaiting) (l l' : list (nat * Awaiting)) :
  awaiting rid l = Some k -> awaiting rid (l ++ l') = Some k.
Proof.
  induction l as [|[r k0] l IH]; cbn; [discriminate|].
  destruct (r =? rid)%nat; auto.
Qed.








(** ** Failing requests *)

Lemma grows_refl (w w' : World) :
  next_request w' = next_request w -> pending w' = pending w ->
  network w' = network w -> grows w w'.
Proof.
  intros Hn Hp Hw. unfold grows. rewrite Hn, Hp, Hw. auto.
Qed.

Lemma _connectToClient_grows (origin : ProbeOrigin) (w : World) :
  grows w (snd (_connectToClient host origin w)).
Proof.
  rewrite _connectToClient_eq. cbn [snd]. unfold grows.
  destruct (_httpClient (this w)); cbn; repeat split; auto.
  - intros e He. apply in_app_iff in He. destruct He as [He|[<-|[]]]; auto.
  - right. eauto.
Qed.

(** Dropping suspended invocations, or touching what [grows] does not look
    at, keeps [grows]. *)
Lemma grows_then (w w1 w2 : World) :
  grows w w1 ->
  next_request w2 = next_request w1 -> network w2 = network w1 ->
  (forall e, In e (pending w2) -> In e (pending w1)) ->
  grows w w2.
Proof.
  intros (Hn & Hp & Hw) En Ew Ep. unfold grows.
  rewrite En, Ew. auto.
Qed.

Lemma grows_from (w0 w w' : World) :
  next_request w0 = next_request w -> network w0 = network w ->
  (forall e, In e (pending w0) -> In e (pending w)) ->
  grows w0 w' -> grows w w'.
Proof.
  intros En Ew Ep (Hn & Hp & Hw). unfold grows.
  rewrite <- En, <- Ew. repeat split; auto.
  intros e He. destruct (Hp e He); auto.
Qed.

Lemma request_awaited_grows (posted : Completion AxiosResponse) (w : World) :
  grows w (snd (request_awaited host posted w)).
Proof.
  rewrite request_awaited_snd. destruct posted as [response|error].
  - destruct (_connected (this w)).
    + now apply grows_refl.
    + apply _connectToClient_grows.
  - destruct (refused error && _connected (this w)); now apply grows_refl.
Qed.

Lemma probe_resumes_keeps (r : Completion JsValue) (w : World) :
  next_request (snd (probe_resumes host r w)) = next_request w
  /\ network (snd (probe_resumes host r w)) = network w
  /\ pending (snd (probe_resumes host r w)) = pending w.
Proof.
  destruct r as [result|e]; [destruct (nullish result) eqn:Hn|];
    js_unfold; cbn; rewrite ?Hn; cbn;
    try destruct (strict_neq _ _ && _); auto.
Qed.

Lemma step_grows (i : Input) (w w' : World) :
  step host i w = Some w' -> grows w w'.
Proof.
  destruct i as [args|web3Client|rid posted]; intros H.
  - inversion H; subst w'; clear H.
    unfold external_request, bind, settle. rewrite request_eq.
    unfold grows. destruct (_httpClient (this w)); cbn; repeat split; auto.
    + intros e He. apply in_app_iff in He. destruct He as [He|[<-|[]]]; auto.
    + right. eauto.
  - inversion H; subst w'; clear H.
    rewrite setWeb3Client_eq. destruct (is_http_url web3Client).
    + eapply grows_from; [| | |apply _connectToClient_grows];
        auto; reflexivity.
    + now apply grows_refl.
  - apply step_PostSettles in H. destruct H as (k & Hk & ->).
    rewrite post_settles_eq.
    assert (G : grows w (snd (request_awaited host posted
                                (snd (resume rid w))))).
    { eapply grows_from; [| | |apply request_awaited_grows];
        try reflexivity.
      cbn. intros e He. now apply filter_In in He. }
    destruct k as [|origin].
    + eapply grows_then; [exact G| | |]; auto; reflexivity.
    + destruct (probe_resumes_keeps
                  (fst (request_awaited host posted (snd (resume rid w))))
                  (snd (request_awaited host posted (snd (resume rid w)))))
        as (Hn & Hw & Hp).
      eapply grows_then; [exact G| | |]; auto.
      intros e. now rewrite Hp.
Qed.

Lemma grows_numbered (w w' : World) :
  grows w w' -> numbered w -> numbered w'.
Proof.
  intros (Hn & Hp & Hw) (Nw & Nd & Np). unfold numbered. repeat split.
  - destruct Hw as [->|(p & -> & E & L)].
    + eapply Forall_impl; [|exact Nw]. cbn. intros; lia.
    + apply Forall_app. split.
      * eapply Forall_impl; [|exact Nw]. cbn. intros; lia.
      * constructor; [lia|constructor].
  - destruct Hw as [->|(p & -> & E & L)]; [exact Nd|].
    rewrite map_app. cbn.
    apply NoDup_app; [exact Nd|repeat constructor; intros []|].
    intros x Hx [<-|[]].
    apply in_map_iff in Hx. destruct Hx as (q & Eq & Hq).
    rewrite Forall_forall in Nw. specialize (Nw q Hq). lia.
  - apply Forall_forall. intros e He.
    rewrite Forall_forall in Np.
    destruct (Hp e He) as [Hin|[E L]]; [specialize (Np e Hin)|]; lia.
Qed.

Lemma new_numbered (web3Client : JsValue) (w : World) :
  new_Web3ProvidersHttp host web3Client = (Normal tt, w) -> numbered w.
Proof.
  rewrite new_Web3ProvidersHttp_eq.
  destruct (is_http_url web3Client); [|discriminate].
  rewrite _connectToClient_eq. cbn. intros H. inversion H.
  unfold numbered; cbn. repeat constructor. intros [].
Qed.

Lemma reachable_numbered (w : World) : reachable host w -> numbered w.
Proof.
  induction 1 as [web3Client w H|i w w' _ IH H].
  - eauto using new_numbered.
  - eauto using grows_numbered, step_grows.
Qed.

Lemma awaiting_In (rid : nat) (k : Awaiting) (l : list (nat * Awaiting)) :
  awaiting rid l = Some k -> In (rid, k) l.
Proof.
  induction l as [|[r k0] l IH]; cbn; [discriminate|].
  destruct (r =? rid)%nat eqn:E; [|auto].
  apply Nat.eqb_eq in E. intros H. inversion H. subst. auto.
Qed.

Lemma posts_none (rid : nat) (l : list PostCall) :
  ~ In rid (map post_request l) ->
  filter (fun p => (post_request p =? rid)%nat) l = [].
Proof.
  induction l as [|q l IH]; cbn; intros H; [reflexivity|].
  destruct (post_request q =? rid)%nat eqn:E.
  - apply Nat.eqb_eq in E. exfalso. auto.
  - auto.
Qed.

Lemma posts_at_most_one (rid : nat) (l : list PostCall) :
  NoDup (map post_request l) ->
  List.length (filter (fun p => (post_request p =? rid)%nat) l) <= 1.
Proof.
  induction l as [|p l IH]; cbn; intros H; [lia|].
  inversion H as [|? ? Hn Hd]; subst.
  destruct (post_request p =? rid)%nat eqn:E; [|auto].
  apply Nat.eqb_eq in E. subst rid. cbn.
  rewrite posts_none by assumption. cbn. lia.
Qed.

Lemma request_awaited_settled (posted : Completion AxiosResponse)
    (w : World) :
  settled (snd (request_awaited host posted w)) = settled w.
Proof.
  rewrite request_awaited_snd. destruct posted as [response|error].
  - destruct (_connected (this w)); [reflexivity|].
    rewrite _connectToClient_eq. now destruct (_httpClient (this w)).
  - now destruct (refused error && _connected (this w)).
Qed.

Lemma request_awaited_rejected_network (error : JsError) (w : World) :
  network (snd (request_awaited host (Throw error) w)) = network w.
Proof.
  rewrite request_awaited_snd.
  now destruct (refused error && _connected (this w)).
Qed.

(** C8: a call of [request] whose POST is rejected, or is answered with a
    body that is [null] or [undefined], rejects, and it rejects with a
    plain [Error] whose message is the message of the failure underneath
    (the transport's error, or the [TypeError] of reading the body); these
    are the only ways it rejects once its POST is under way, and an
    outside caller is handed exactly that error.  Without an HTTP client
    handle the call throws "No HTTP client initiliazed" and nothing is
    posted.  There is no retry: the settlement of a rejected POST makes no
    POST at all, in every world a provider can reach an invocation of
    [request] has made at most one POST, and the settlement of its POST
    makes no further POST on its behalf. *)
Theorem request_failure_is_reported :
  (forall posted w e,
      fst (request_awaited host posted w) = Throw e ->
      request_fails posted = true
      /\ e = Error_ host (message (underlying host posted)))
  /\ (forall args w e,
      fst (request host args w) = Throw e ->
      _httpClient (this w) = None
      /\ e = Error_ host "No HTTP client initiliazed")
  /\ (forall args w,
      _httpClient (this w) = None ->
      fst (request host args w)
      = Throw (Error_ host "No HTTP client initiliazed")
      /\ network (snd (request host args w)) = network w)
  /\ (forall w rid,
      reachable host w -> List.length (posts_of rid w) <= 1)
  /\ (forall w rid posted w',
      reachable host w ->
      step host (PostSettles rid posted) w = Some w' ->
      posts_of rid w' = posts_of rid w)
  /\ (forall posted w,
      request_fails posted = true ->
      fst (request_awaited host posted w)
      = Throw (Error_ host (message (underlying host posted))))
  /\ (forall rid error w w',
      step host (PostSettles rid (Throw error)) w = Some w' ->
      network w' = network w)
  /\ (forall rid posted w w',
      step host (PostSettles rid posted) w = Some w' ->
      awaiting rid (pending w) = Some ExternalCaller ->
      request_fails posted = true ->
      settled w'
      = settled w
        ++ [(rid, Throw (Error_ host (message (underlying host posted))))]).
Proof.
  assert (Hfails : forall posted w,
             request_fails posted = true ->
             fst (request_awaited host posted w)
             = Throw (Error_ host (message (underlying host posted)))).
  { intros posted w H. rewrite request_awaited_fst.
    destruct posted as [response|error]; cbn in *; [|reflexivity].
    now rewrite H. }
  split; [|split; [|split; [|split; [|split; [|split; [|split]]]]]].
  - intros posted w e H. rewrite request_awaited_fst in H.
    destruct posted as [response|error]; cbn.
    + destruct (nullish (data response)); [|discriminate].
      now inversion H.
    + now inversion H.
  - intros args w e H. rewrite request_eq in H.
    destruct (_httpClient (this w)); [discriminate|]. now inversion H.
  - intros args w H. now rewrite request_eq, H.
  - intros w rid H. apply posts_at_most_one.
    now apply reachable_numbered.
  - intros w rid posted w' Hr H.
    apply reachable_numbered in Hr. destruct Hr as (Nw & Nd & Np).
    pose proof (step_grows _ _ _ H) as (Hn & Hp & [Hw|(p & Hw & E & L)]);
      unfold posts_of; rewrite Hw; [reflexivity|].
    rewrite filter_app. cbn.
    apply step_PostSettles in H. destruct H as (k & Hk & _).
    apply awaiting_In in Hk. rewrite Forall_forall in Np.
    specialize (Np _ Hk). cbn in Np.
    destruct (post_request p =? rid)%nat eqn:Eq.
    + apply Nat.eqb_eq in Eq. lia.
    + now rewrite app_nil_r.
  - exact Hfails.
  - intros rid error w w' H.
    apply step_PostSettles in H. destruct H as (k & Hk & ->).
    rewrite post_settles_eq. destruct k as [|origin].
    + cbn [hand_over modify snd network].
      now rewrite request_awaited_rejected_network.
    + rewrite (proj1 (proj2 (probe_resumes_keeps _ _))).
      now rewrite request_awaited_rejected_network.
  - intros rid posted w w' H Hk Hf.
    apply step_PostSettles in H. destruct H as (k & Hk' & ->).
    assert (k = ExternalCaller) by congruence. subst k.
    rewrite post_settles_eq, (Hfails posted _ Hf).
    cbn [hand_over modify snd settled].
    now rewrite request_awaited_settled.
Qed.

(** ** The probe that the first answer starts *)

(** An answer that arrives while connected is [false] makes [request]
    start a probe: one more POST, one more suspended invocation. *)
Lemma answered_network (rid : nat) (response : AxiosResponse) (k : Awaiting)
    (w : World) :
  network (snd (post_settles host rid (Normal response) k w)) =
  network w ++
  if _connected (this w) then []
  else match _httpClient (this w) with
       | Some client =>
           [mkPost (next_request w) client "" (request_data eth_chainId)
              (request_config eth_chainId)]
       | None => []
       end.
Proof.
  rewrite post_settles_eq.
  assert (E : network (snd (request_awaited host (Normal response)
                              (snd (resume rid w)))) =
              network w ++
              if _connected (this w) then []
              else match _httpClient (this w) with
                   | Some client =>
                       [mkPost (next_request w) client ""
                          (request_data eth_chainId)
                          (request_config eth_chainId)]
                   | None => []
                   end).
  { rewrite request_awaited_snd. cbn [this resume modify snd].
    destruct (_connected (this w)); [cbn; now rewrite app_nil_r|].
    rewrite _connectToClient_eq. cbn.
    destruct (_httpClient (this w)); cbn; now rewrite ?app_nil_r. }
  destruct k as [|origin]; [exact E|].
  now rewrite (proj1 (proj2 (probe_resumes_keeps _ _))).
Qed.

Lemma answered_pending (rid : nat) (response : AxiosResponse) (k : Awaiting)
    (w : World) :
  pending (snd (post_settles host rid (Normal response) k w)) =
  filter (fun p => negb (fst p =? rid)%nat) (pending w) ++
  if _connected (this w) then []
  else match _httpClient (this w) with
       | Some client => [(next_request w, ChainIdProbe FromRequest)]
       | None => []
       end.
Proof.
  rewrite post_settles_eq.
  assert (E : pending (snd (request_awaited host (Normal response)
                              (snd (resume rid w)))) =
              filter (fun p => negb (fst p =? rid)%nat) (pending w) ++
              if _connected (this w) then []
              else match _httpClient (this w) with
                   | Some client =>
                       [(next_request w, ChainIdProbe FromRequest)]
                   | None => []
                   end).
  { rewrite request_awaited_snd. cbn [this resume modify snd].
    destruct (_connected (this w)); [cbn; now rewrite app_nil_r|].
    rewrite _connectToClient_eq. cbn.
    destruct (_httpClient (this w)); cbn; now rewrite ?app_nil_r. }
  destruct k as [|origin]; [exact E|].
  now rewrite (proj2 (proj2 (probe_resumes_keeps _ _))).
Qed.

(** X1: The POST of the constructor's probe is answered while connected is
    still [false] (the flag is set only when [_connectToClient] resumes),
    so [request] starts a second probe; once that one is answered as well,
    a second Connect event has been emitted. *)
Theorem startup_starts_second_probe
    (url : JsValue) (r1 r2 : AxiosResponse) (w0 : World) :
  new_Web3ProvidersHttp host url = (Normal tt, w0) ->
  nullish (data r1) = false ->
  nullish (data r2) = false ->
  exists w1 w2,
    step host (PostSettles 0 (Normal r1)) w0 = Some w1
    /\ awaiting 1 (pending w1) = Some (ChainIdProbe FromRequest)
    /\ map post_request (network w1) = [0; 1]
    /\ step host (PostSettles 1 (Normal r2)) w1 = Some w2
    /\ filter is_Connect (emitted w2)
       = [Connect_with (chainId_of r1); Connect_with (chainId_of r2)].
Proof.
  rewrite new_Web3ProvidersHttp_eq.
  destruct (is_http_url url); [|discriminate].
  rewrite _connectToClient_eq. cbn. intros H H1 H2.
  inversion H as [E]; clear H.
  set (w1 := snd (post_settles host 0 (Normal r1)
                    (ChainIdProbe FromConstructor) w0)).
  assert (P1 : pending w1 = [(1, ChainIdProbe FromRequest)])
    by (subst w1; rewrite answered_pending; now subst w0).
  assert (N1 : map post_request (network w1) = [0; 1])
    by (subst w1; rewrite answered_network; now subst w0).
  assert (E1 : emitted w1 = [Connect_with (chainId_of r1)]).
  { subst w1. rewrite answered_emitted. cbn [probe_succeeds request_fails].
    rewrite H1. subst w0. reflexivity. }
  exists w1, (snd (post_settles host 1 (Normal r2)
                     (ChainIdProbe FromRequest) w1)).
  split; [now subst w1 w0|]. split; [now rewrite P1|].
  split; [exact N1|]. split; [cbn; now rewrite P1|].
  rewrite answered_emitted, E1. cbn [probe_succeeds request_fails].
  rewrite H2. cbn.
  destruct (chain_changed (chainId_of r2) w1); reflexivity.
Qed.

End Properties.

(** ** The theorems at work on sample runs *)

(** The sample endpoint is valid: construction returns, with the probe
    under way. *)
Lemma started_ok :
  new_Web3ProvidersHttp sample_host (JString "http://localhost:8545")
  = (Normal tt, started).
Proof. vm_compute. reflexivity. Qed.

(** C1 at work: the flag is [false] after construction, [true] once the
    constructor's probe is answered, [false] once a later POST is
    refused. *)
Lemma connected_flag_transitions_witness :
  _connected (this started) = false
  /\ _connected (this (after [PostSettles 0 (answers chain_0x1)])) = true
  /\ _connected (this (after [PostSettles 0 (answers chain_0x1);
                              PostSettles 1 ECONNREFUSED])) = false.
Proof.
  pose proof (connected_flag_transitions sample_host)
    as (Hnew & _ & Hon & _ & Hoff).
  split; [|split].
  - exact (Hnew _ _ started_ok).
  - apply (Hon 0 (mkResponse chain_0x1) (ChainIdProbe FromConstructor)
             started (after [PostSettles 0 (answers chain_0x1)]));
      vm_compute; reflexivity.
  - apply (Hoff 1 (mkError (JString "ECONNREFUSED") "connect ECONNREFUSED" "")
             (after [PostSettles 0 (answers chain_0x1)])
             (after [PostSettles 0 (answers chain_0x1);
                     PostSettles 1 ECONNREFUSED]));
      vm_compute; reflexivity.
Defined.

(** C2 at work: two POSTs are under way while connected; the first refusal
    disconnects and emits Disconnect, the second emits nothing. *)
Lemma connection_refused_disconnects_once_witness :
  _connected (this (after [PostSettles 0 (answers chain_0x1);
                           CallRequest eth_blockNumber;
                           PostSettles 1 ECONNREFUSED])) = false
  /\ emitted (after [PostSettles 0 (answers chain_0x1);
                     CallRequest eth_blockNumber;
                     PostSettles 1 ECONNREFUSED])
     = emitted (after [PostSettles 0 (answers chain_0x1);
                       CallRequest eth_blockNumber])
       ++ [Disconnect_4900]
  /\ _connected (this (after [PostSettles 0 (answers chain_0x1);
                              CallRequest eth_blockNumber;
                              PostSettles 1 ECONNREFUSED;
                              PostSettles 2 ECONNREFUSED])) = false
  /\ emitted (after [PostSettles 0 (answers chain_0x1);
                     CallRequest eth_blockNumber;
                     PostSettles 1 ECONNREFUSED;
                     PostSettles 2 ECONNREFUSED])
     = emitted (after [PostSettles 0 (answers chain_0x1);
                       CallRequest eth_blockNumber;
                       PostSettles 1 ECONNREFUSED]).
Proof.
  apply (connection_refused_disconnects_once sample_host 1 2
           (mkError (JString "ECONNREFUSED") "connect ECONNREFUSED" "")
           (mkError (JString "ECONNREFUSED") "connect ECONNREFUSED" "")
           (after [PostSettles 0 (answers chain_0x1);
                   CallRequest eth_blockNumber])
           (after [PostSettles 0 (answers chain_0x1);
                   CallRequest eth_blockNumber;
                   PostSettles 1 ECONNREFUSED])
           (after [PostSettles 0 (answers chain_0x1);
                   CallRequest eth_blockNumber;
                   PostSettles 1 ECONNREFUSED;
                   PostSettles 2 ECONNREFUSED]));
    vm_compute; reflexivity.
Defined.

(** C3 at work: the nested [data] of the sample answer is returned. *)
Lemma request_unwraps_truthy_data_witness :
  (exists response,
      answers (JObject [("data", chain_0x1)]) = Normal response
      /\ nullish (data response) = false
      /\ chain_0x1 = if truthy (property (data response) "data")
                     then property (data response) "data"
                     else data response)
  /\ fst (request_awaited sample_host
            (answers (JObject [("data", chain_0x1)])) started)
     = Normal chain_0x1
  /\ fst (request_awaited sample_host (answers chain_0x1) started)
     = Normal chain_0x1.
Proof.
  apply (request_unwraps_truthy_data sample_host
           (answers (JObject [("data", chain_0x1)])) started chain_0x1).
  vm_compute; reflexivity.
Defined.

(** C3 as stated fails: the body [{ data: "" }] has a nested [data] field,
    the empty string, and [request] returns the body, not that field. *)
Lemma falsy_data_is_not_unwrapped :
  props_get "data" (own_props [("data", JString "")]) = Some (JString "")
  /\ unwrap_as_specified (JObject [("data", JString "")]) = JString ""
  /\ fst (request_awaited sample_host
            (answers (JObject [("data", JString "")])) started)
     = Normal (JObject [("data", JString "")])
  /\ (fst (request_awaited sample_host
             (answers (JObject [("data", JString "")])) started)
      = Normal (unwrap_as_specified (JObject [("data", JString "")]))
      -> False).
Proof.
  repeat apply conj; vm_compute;
    first [reflexivity | intros H; discriminate H].
Qed.

(** C4 at work: [{ a: 1, b: 2 }] goes out as [[1, 2]], also when
    [rpcOptions] has a [params] of its own. *)
Lemma request_normalizes_params_witness :
  exists post sent,
    network (snd (request sample_host sum_args started))
    = network started ++ [post]
    /\ property (post_data post) "params" = JArray sent
    /\ sent = map (property (JObject [("a", JNumber 1); ("b", JNumber 2)]))
                (Object_keys [("a", JNumber 1); ("b", JNumber 2)])
    /\ arrayParams (ParamsObject [("a", JNumber 1); ("b", JNumber 2)])
       = [JNumber 1; JNumber 2].
Proof.
  apply (request_normalizes_params sample_host sum_args
           (mkAxios (JString "http://localhost:8545")) started).
  vm_compute; reflexivity.
Defined.

(** C5 at work: [ftp://node] is rejected by the constructor and by
    [setWeb3Client], which leaves the started provider as it was. *)
Lemma invalid_url_is_rejected_witness :
  new_Web3ProvidersHttp sample_host (JString "ftp://node")
  = (Throw (makeError sample_host invalidClientUrl
              "Provided web3Client is an invalid HTTP(S) URL"
              (JString "ftp://node")),
     new_object)
  /\ _httpClient (this new_object) = None
  /\ setWeb3Client sample_host (JString "ftp://node") started
     = (Throw (Error_ sample_host
                 ("Failed to set web3 client: "
                  ++ message (makeError sample_host invalidClientUrl
                                "Provided web3Client is an invalid HTTP(S) URL"
                                (JString "ftp://node")))),
        started).
Proof.
  apply (invalid_url_is_rejected sample_host (JString "ftp://node") started).
  intros s E. inversion E. vm_compute. reflexivity.
Defined.

(** C5 as stated fails for [setWeb3Client]: on [ftp://node] it throws a
    plain [Error] with a longer message, not the [invalidClientUrl] error
    that the constructor throws. *)
Lemma setWeb3Client_error_is_not_invalidClientUrl :
  has_http_scheme "ftp://node" = false
  /\ fst (new_Web3ProvidersHttp sample_host (JString "ftp://node"))
     = Throw (makeError sample_host invalidClientUrl
                "Provided web3Client is an invalid HTTP(S) URL"
                (JString "ftp://node"))
  /\ fst (setWeb3Client sample_host (JString "ftp://node") started)
     = Throw (mkError JUndefined
                "Failed to set web3 client: Provided web3Client is an invalid HTTP(S) URL"
                "")
  /\ (fst (setWeb3Client sample_host (JString "ftp://node") started)
      = Throw (makeError sample_host invalidClientUrl
                 "Provided web3Client is an invalid HTTP(S) URL"
                 (JString "ftp://node"))
      -> False).
Proof.
  repeat apply conj; vm_compute;
    first [reflexivity | intros H; discriminate H].
Qed.


(** The same on one run: a call, then the first answer. *)
Example Connect_once_at_startup :
  _connected (this (after [CallRequest eth_blockNumber;
                           PostSettles 0 (answers chain_0x1)])) = true
  /\ emitted (after [CallRequest eth_blockNumber;
                     PostSettles 0 (answers chain_0x1)])
     = [Connect_with (JString "0x1")].
Proof. repeat apply conj; vm_compute; reflexivity. Qed.


(** C7 at work: the chain id was [0x1]; a probe that observes [0x2] emits
    Connect and then ChainChanged with [0x2], and [0x2] is stored. *)
Lemma ChainChanged_on_probe_witness :
  exists new,
    emitted (after [PostSettles 0 (answers chain_0x1);
                    PostSettles 1 (answers chain_0x2)])
    = emitted (after [PostSettles 0 (answers chain_0x1)]) ++ new
    /\ (In (ChainChanged, chainId_of (mkResponse chain_0x2)) new <->
        _clientChainId (this (after [PostSettles 0 (answers chain_0x1)]))
        <> JUndefined
        /\ strict_eq (chainId_of (mkResponse chain_0x2))
             (_clientChainId
                (this (after [PostSettles 0 (answers chain_0x1)])))
           = false)
    /\ filter is_ChainChanged new =
       (if chain_changed (chainId_of (mkResponse chain_0x2))
             (after [PostSettles 0 (answers chain_0x1)])
        then [(ChainChanged, chainId_of (mkResponse chain_0x2))] else [])
    /\ _clientChainId (this (after [PostSettles 0 (answers chain_0x1);
                                    PostSettles 1 (answers chain_0x2)]))
       = chainId_of (mkResponse chain_0x2).
Proof.
  apply (ChainChanged_on_probe sample_host 1 (mkResponse chain_0x2)
           (ChainIdProbe FromRequest)
           (after [PostSettles 0 (answers chain_0x1)])
           (after [PostSettles 0 (answers chain_0x1);
                   PostSettles 1 (answers chain_0x2)]));
    vm_compute; reflexivity.
Defined.

(** C8 at work: a timed-out POST rejects the call with the transport's
    message, the caller is handed that error, no POST is made by the
    settlement, and the invocation still has its one POST. *)
Lemma request_failure_is_reported_witness :
  (request_fails ETIMEDOUT = true
   /\ Error_ sample_host "timeout"
      = Error_ sample_host (message (underlying sample_host ETIMEDOUT)))
  /\ List.length (posts_of 1 (after [CallRequest eth_blockNumber;
                                     PostSettles 1 ETIMEDOUT])) <= 1
  /\ fst (request_awaited sample_host ETIMEDOUT started)
     = Throw (Error_ sample_host (message (underlying sample_host ETIMEDOUT)))
  /\ fst (request_awaited sample_host (answers JNull) started)
     = Throw (Error_ sample_host
                (message (underlying sample_host (answers JNull))))
  /\ network (after [CallRequest eth_blockNumber; PostSettles 1 ETIMEDOUT])
     = network (after [CallRequest eth_blockNumber])
  /\ settled (after [CallRequest eth_blockNumber; PostSettles 1 ETIMEDOUT])
     = settled (after [CallRequest eth_blockNumber])
       ++ [(1, Throw (Error_ sample_host
                        (message (underlying sample_host ETIMEDOUT))))].
Proof.
  pose proof (request_failure_is_reported sample_host)
    as (Hthrown & _ & _ & Hone & _ & Hfails & Hnone & Hcaller).
  split; [apply (Hthrown ETIMEDOUT started); vm_compute; reflexivity|].
  repeat apply conj.
  - apply Hone.
    apply (reachable_step sample_host (PostSettles 1 ETIMEDOUT)
             (after [CallRequest eth_blockNumber]));
      [|vm_compute; reflexivity].
    apply (reachable_step sample_host (CallRequest eth_blockNumber) started);
      [|vm_compute; reflexivity].
    exact (reachable_new sample_host _ _ started_ok).
  - apply (Hfails ETIMEDOUT started). vm_compute; reflexivity.
  - apply (Hfails (answers JNull) started). vm_compute; reflexivity.
  - apply (Hnone 1 (mkError (JString "ETIMEDOUT") "timeout" "")
             (after [CallRequest eth_blockNumber])
             (after [CallRequest eth_blockNumber; PostSettles 1 ETIMEDOUT])).
    vm_compute; reflexivity.
  - apply (Hcaller 1 ETIMEDOUT (after [CallRequest eth_blockNumber])
             (after [CallRequest eth_blockNumber; PostSettles 1 ETIMEDOUT]));
      vm_compute; reflexivity.
Defined.

(** C9 at work: answering the constructor's probe leaves the handle and
    the endpoint of the started provider in place. *)
Lemma request_keeps_endpoint_and_client_witness :
  _httpClient (this (after [PostSettles 0 (answers chain_0x1)]))
  = _httpClient (this started)
  /\ web3Client (this (after [PostSettles 0 (answers chain_0x1)]))
     = web3Client (this started).
Proof.
  apply (proj2 (proj2 (request_keeps_endpoint_and_client sample_host))
           (PostSettles 0 (answers chain_0x1)) started
           (after [PostSettles 0 (answers chain_0x1)]));
    vm_compute; reflexivity.
Defined.

(** C10 at work: a connection-refused rejection while not yet connected,
    and a timeout, both leave the provider as it was. *)
Lemma failed_request_preserves_provider_witness :
  this (after [PostSettles 0 ECONNREFUSED]) = this started
  /\ this (after [PostSettles 0 (answers chain_0x1);
                  PostSettles 1 ETIMEDOUT])
     = this (after [PostSettles 0 (answers chain_0x1)]).
Proof.
  pose proof (failed_request_preserves_provider sample_host)
    as (_ & _ & Hstep).
  split.
  - apply (Hstep 0 ECONNREFUSED started (after [PostSettles 0 ECONNREFUSED]));
      vm_compute; reflexivity.
  - apply (Hstep 1 ETIMEDOUT (after [PostSettles 0 (answers chain_0x1)])
             (after [PostSettles 0 (answers chain_0x1);
                     PostSettles 1 ETIMEDOUT]));
      vm_compute; reflexivity.
Defined.

(** The second probe at work: two answers with [0x1], two Connect
    events. *)
Lemma startup_starts_second_probe_witness :
  exists w1 w2,
    step sample_host (PostSettles 0 (answers chain_0x1)) started = Some w1
    /\ awaiting 1 (pending w1) = Some (ChainIdProbe FromRequest)
    /\ map post_request (network w1) = [0; 1]
    /\ step sample_host (PostSettles 1 (answers chain_0x1)) w1 = Some w2
    /\ filter is_Connect (emitted w2)
       = [Connect_with (chainId_of (mkResponse chain_0x1));
          Connect_with (chainId_of (mkResponse chain_0x1))].
Proof.
  apply (startup_starts_second_probe sample_host
           (JString "http://localhost:8545")
           (mkResponse chain_0x1) (mkResponse chain_0x1) started);
    vm_compute; reflexivity.
Defined.

(** * Further properties of the provider *)

Section Further.

Variable host : Host.

(** ** Construction and rebinding *)

Lemma is_http_url_string (s : string) :
  is_http_url (JString s) = has_http_scheme s.
Proof. apply regex_test_http_url. Qed.

(** X2: For a valid endpoint the constructor binds a client to it, stores it,
    leaves the provider disconnected with no chain id, emits nothing and
    has made exactly one POST, the chain-id probe, which is now
    suspended. *)
Theorem constructor_binds_and_probes (s : string) :
  has_http_scheme s = true ->
  new_Web3ProvidersHttp host (JString s) =
  (Normal tt,
   mkWorld
     (mkProvider (Some (mkAxios (JString s))) JUndefined false (JString s))
     []
     [eth_chainId_post 0 (mkAxios (JString s))]
     [(0, ChainIdProbe FromConstructor)]
     [] [] 1).
Proof.
  intros H. rewrite new_Web3ProvidersHttp_eq, is_http_url_string, H.
  rewrite _connectToClient_eq. reflexivity.
Qed.

(** X3: For a valid endpoint [setWeb3Client] binds a new client to it and
    stores it, starts one chain-id probe through the new client, and
    leaves everything else as it was: the connected flag and the stored
    chain id are not reset, nothing is emitted, and the invocations
    suspended on POSTs to the old endpoint stay suspended. *)
Theorem setWeb3Client_rebinds_and_probes (s : string) (w : World) :
  has_http_scheme s = true ->
  setWeb3Client host (JString s) w =
  (Normal tt,
   mkWorld
     (mkProvider (Some (mkAxios (JString s))) (_clientChainId (this w))
        (_connected (this w)) (JString s))
     (emitted w)
     (network w ++ [eth_chainId_post (next_request w) (mkAxios (JString s))])
     (pending w ++ [(next_request w, ChainIdProbe FromSetWeb3Client)])
     (settled w) (unhandled w) (S (next_request w))).
Proof.
  intros H. rewrite setWeb3Client_eq, is_http_url_string, H.
  rewrite _connectToClient_eq. reflexivity.
Qed.

(** ** Invariants of the worlds a provider can reach *)

Lemma new_bound (web3Client : JsValue) (w : World) :
  new_Web3ProvidersHttp host web3Client = (Normal tt, w) -> bound w.
Proof.
  rewrite new_Web3ProvidersHttp_eq.
  destruct (is_http_url web3Client) eqn:E; [|discriminate].
  apply is_http_url_spec in E. destruct E as (s & -> & Hs).
  rewrite _connectToClient_eq. cbn. intros H. inversion H.
  exists s. auto.
Qed.

Lemma step_bound (i : Input) (w w' : World) :
  step host i w = Some w' -> bound w -> bound w'.
Proof.
  intros H (url & Hu & Hc & He).
  destruct i as [args|web3Client|rid [response|error]].
  - inversion H; subst w'. exists url.
    now rewrite external_request_this.
  - inversion H; subst w'. rewrite setWeb3Client_eq.
    destruct (is_http_url web3Client) eqn:E.
    + apply is_http_url_spec in E. destruct E as (s & -> & Hs).
      exists s. rewrite _connectToClient_this. cbn. auto.
    + exists url. auto.
  - apply step_PostSettles in H. destruct H as (k & Hk & ->).
    exists url. rewrite answered_this.
    destruct (probe_succeeds k (Normal response)); cbn; auto.
  - apply step_PostSettles in H. destruct H as (k & Hk & ->).
    exists url. rewrite rejected_this.
    destruct (refused error && _connected (this w)); cbn; auto.
Qed.

Lemma reachable_bound (w : World) : reachable host w -> bound w.
Proof.
  induction 1 as [web3Client w H|i w w' _ IH H];
    eauto using new_bound, step_bound.
Qed.

(** X4: In every world a provider can reach, a client is bound, its base URL
    is the stored endpoint, and the endpoint passes the URL test; so a
    call of [request] never fails with "No HTTP client initiliazed": it
    always makes its one POST, through that client, and is suspended. *)
Theorem client_is_always_bound (w : World) (args : RequestArguments) :
  reachable host w ->
  exists url,
    has_http_scheme url = true
    /\ _httpClient (this w) = Some (mkAxios (JString url))
    /\ web3Client (this w) = JString url
    /\ fst (request host args w) = Normal (next_request w)
    /\ network (snd (request host args w))
       = network w ++ [mkPost (next_request w) (mkAxios (JString url)) ""
                         (request_data args) (request_config args)].
Proof.
  intros H. destruct (reachable_bound w H) as (url & Hu & Hc & He).
  exists url. rewrite request_eq, Hc. auto.
Qed.

Lemma connection_of_log_app (log new : list (Web3ProviderEvents * JsValue)) :
  connection_of_log (log ++ new)
  = fold_left connection_after new (connection_of_log log).
Proof. apply fold_left_app. Qed.

Lemma chainId_of_log_app (log new : list (Web3ProviderEvents * JsValue)) :
  chainId_of_log (log ++ new)
  = fold_left chainId_after new (chainId_of_log log).
Proof. apply fold_left_app. Qed.

Lemma new_fresh (web3Client : JsValue) (w : World) :
  new_Web3ProvidersHttp host web3Client = (Normal tt, w) ->
  emitted w = [] /\ _connected (this w) = false
  /\ _clientChainId (this w) = JUndefined.
Proof.
  rewrite new_Web3ProvidersHttp_eq.
  destruct (is_http_url web3Client); [|discriminate].
  rewrite _connectToClient_eq. cbn. intros H. inversion H. auto.
Qed.

(** X5: The connected flag agrees with the events: in every world a provider
    can reach it is [true] exactly when the last of the Connect and
    Disconnect events emitted so far is a Connect. *)
Theorem connected_agrees_with_events (w : World) :
  reachable host w ->
  _connected (this w) = connection_of_log (emitted w).
Proof.
  induction 1 as [web3Client w H|i w w' _ IH H].
  - apply new_fresh in H. destruct H as (-> & -> & _). reflexivity.
  - destruct i as [args|web3Client|rid [response|error]].
    + inversion H; subst w'.
      now rewrite external_request_this, external_request_emitted.
    + inversion H; subst w'.
      rewrite setWeb3Client_this, setWeb3Client_emitted.
      now destruct (is_http_url web3Client).
    + apply step_PostSettles in H. destruct H as (k & Hk & ->).
      rewrite answered_this, answered_emitted, connection_of_log_app.
      destruct (probe_succeeds k (Normal response)); cbn; [|exact IH].
      now destruct (chain_changed (chainId_of response) w).
    + apply step_PostSettles in H. destruct H as (k & Hk & ->).
      rewrite rejected_this, rejected_emitted, connection_of_log_app.
      destruct (refused error && _connected (this w)); cbn; auto.
Qed.

(** X6: The stored chain id agrees with the events: in every world a provider
    can reach it is the chain id carried by the last Connect event, and
    [undefined] before the first. *)
Theorem chainId_agrees_with_events (w : World) :
  reachable host w ->
  _clientChainId (this w) = chainId_of_log (emitted w).
Proof.
  induction 1 as [web3Client w H|i w w' _ IH H].
  - apply new_fresh in H. destruct H as (-> & _ & ->). reflexivity.
  - destruct i as [args|web3Client|rid [response|error]].
    + inversion H; subst w'.
      now rewrite external_request_this, external_request_emitted.
    + inversion H; subst w'.
      rewrite setWeb3Client_this, setWeb3Client_emitted.
      now destruct (is_http_url web3Client).
    + apply step_PostSettles in H. destruct H as (k & Hk & ->).
      rewrite answered_this, answered_emitted, chainId_of_log_app.
      destruct (probe_succeeds k (Normal response)); cbn; [|exact IH].
      now destruct (chain_changed (chainId_of response) w).
    + apply step_PostSettles in H. destruct H as (k & Hk & ->).
      rewrite rejected_this, rejected_emitted, chainId_of_log_app.
      destruct (refused error && _connected (this w)); cbn; auto.
Qed.

Lemma announced_app (before : option (Web3ProviderEvents * JsValue))
    (log new : list (Web3ProviderEvents * JsValue)) :
  announced before log ->
  announced (last_event before log) new ->
  announced before (log ++ new).
Proof.
  revert before. induction log as [|e log IH]; cbn; intros before Hl Hn.
  - exact Hn.
  - destruct Hl as [He Hl]. split; [exact He|]. now apply IH.
Qed.

(** X7: Every ChainChanged event that a provider ever emits comes right after
    a Connect event carrying the same chain id. *)
Theorem ChainChanged_follows_Connect (w : World) :
  reachable host w -> announced None (emitted w).
Proof.
  induction 1 as [web3Client w H|i w w' _ IH H].
  - apply new_fresh in H. destruct H as (-> & _). exact I.
  - destruct i as [args|web3Client|rid [response|error]].
    + inversion H; subst w'. now rewrite external_request_emitted.
    + inversion H; subst w'. now rewrite setWeb3Client_emitted.
    + apply step_PostSettles in H. destruct H as (k & Hk & ->).
      rewrite answered_emitted. apply announced_app; [exact IH|].
      destruct (probe_succeeds k (Normal response)); [|exact I].
      destruct (chain_changed (chainId_of response) w); cbn;
        repeat split; first [discriminate | reflexivity].
    + apply step_PostSettles in H. destruct H as (k & Hk & ->).
      rewrite rejected_emitted. apply announced_app; [exact IH|].
      destruct (refused error && _connected (this w)); cbn; [|exact I].
      repeat split; discriminate.
Qed.

(** ** What a settlement leaves behind *)

Lemma connect_logs (chainId : JsValue) (w : World) :
  settled (connect host chainId w) = settled w
  /\ unhandled (connect host chainId w) = unhandled w.
Proof.
  js_unfold. cbn. destruct (strict_neq _ _ && _); auto.
Qed.

Lemma request_awaited_logs (posted : Completion AxiosResponse)
    (client : AxiosInstance) (w : World) :
  _httpClient (this w) = Some client ->
  settled (snd (request_awaited host posted w)) = settled w
  /\ unhandled (snd (request_awaited host posted w)) = unhandled w.
Proof.
  intros Hc. rewrite request_awaited_snd.
  destruct posted as [response|error].
  - destruct (_connected (this w)); [auto|].
    rewrite _connectToClient_eq, Hc. auto.
  - destruct (refused error && _connected (this w)); auto.
Qed.

Lemma outcome_fst (posted : Completion AxiosResponse) (w : World) :
  fst (request_awaited host posted w) = outcome host posted.
Proof. apply request_awaited_fst. Qed.

(** X8: A call of [request] from outside whose POST settles is handed its
    settlement and nothing else is: the value [unwrap] of the body, or a
    plain [Error] that keeps the message of the failure underneath and
    nothing more of it (no [code]).  Its own settlement leaves the stored
    chain id alone and rejects nothing in the background. *)
Theorem external_request_is_settled
    (rid : nat) (posted : Completion AxiosResponse)
    (client : AxiosInstance) (w w' : World) :
  step host (PostSettles rid posted) w = Some w' ->
  awaiting rid (pending w) = Some ExternalCaller ->
  _httpClient (this w) = Some client ->
  settled w' = settled w ++ [(rid, outcome host posted)]
  /\ (forall e, outcome host posted = Throw e ->
        code e = JUndefined
        /\ message e = message (underlying host posted))
  /\ unhandled w' = unhandled w
  /\ _clientChainId (this w') = _clientChainId (this w).
Proof.
  intros H Hk Hc.
  apply step_PostSettles in H. destruct H as (k & Hk' & ->).
  assert (k = ExternalCaller) by congruence. subst k.
  destruct (request_awaited_logs posted client (snd (resume rid w)) Hc)
    as (Hs & Hu).
  split; [|split; [|split]].
  - rewrite post_settles_eq, outcome_fst. cbn [hand_over modify snd settled].
    now rewrite Hs.
  - intros e He. destruct posted as [response|error]; cbn in *.
    + destruct (nullish (data response)); [|discriminate].
      inversion He. auto.
    + inversion He. auto.
  - rewrite post_settles_eq. cbn [hand_over modify snd unhandled].
    exact Hu.
  - destruct posted as [response|error].
    + now rewrite answered_this.
    + rewrite rejected_this.
      now destruct (refused error && _connected (this w)).
Qed.

(** X9: A chain-id probe whose [request] fails is reported to nobody: nothing
    is handed to a caller, the rejection of [_connectToClient] stays
    unhandled, with the message "Error connecting to client: Error getting
    chain id: " followed by the message of the failure, a line break and
    the stack of the intermediate error; no Connect or ChainChanged is
    emitted and the stored chain id stays. *)
Theorem failed_probe_is_unhandled
    (rid : nat) (posted : Completion AxiosResponse) (origin : ProbeOrigin)
    (client : AxiosInstance) (w w' : World) :
  step host (PostSettles rid posted) w = Some w' ->
  awaiting rid (pending w) = Some (ChainIdProbe origin) ->
  _httpClient (this w) = Some client ->
  request_fails posted = true ->
  settled w' = settled w
  /\ (exists e,
        unhandled w' = unhandled w ++ [e]
        /\ message e
           = ("Error connecting to client: Error getting chain id: "
              ++ message (underlying host posted) ++ newline
              ++ stack_trace host
                   ("Error getting chain id: "
                    ++ message (underlying host posted)))%string)
  /\ emitted w' = emitted w ++
       (if post_refused posted && _connected (this w)
        then [Disconnect_4900] else [])
  /\ _clientChainId (this w') = _clientChainId (this w).
Proof.
  intros H Hk Hc Hf.
  apply step_PostSettles in H. destruct H as (k & Hk' & ->).
  assert (k = ChainIdProbe origin) by congruence. subst k.
  destruct (request_awaited_logs posted client (snd (resume rid w)) Hc)
    as (Hs & Hu).
  assert (Ho : outcome host posted
               = Throw (Error_ host (message (underlying host posted)))).
  { destruct posted as [response|error]; cbn in *; [|reflexivity].
    now rewrite Hf. }
  split; [|split; [|split]].
  - rewrite post_settles_eq, outcome_fst, Ho, probe_resumes_rejected.
    cbn [snd unhandledRejection modify settled]. exact Hs.
  - eexists. split.
    + rewrite post_settles_eq, outcome_fst, Ho, probe_resumes_rejected.
      cbn [snd unhandledRejection modify unhandled]. rewrite Hu.
      reflexivity.
    + reflexivity.
  - destruct posted as [response|error].
    + rewrite answered_emitted. cbn in Hf. cbn. now rewrite Hf.
    + now rewrite rejected_emitted.
  - destruct posted as [response|error].
    + rewrite answered_this. cbn in Hf. cbn. now rewrite Hf.
    + rewrite rejected_this.
      now destruct (refused error && _connected (this w)).
Qed.

(** X10: While the provider is connected, the answer to a call from outside
    touches nothing but the caller: no field of the provider changes,
    nothing is emitted, nothing is posted. *)
Theorem answer_while_connected_is_passed_through
    (rid : nat) (response : AxiosResponse) (w w' : World) :
  step host (PostSettles rid (Normal response)) w = Some w' ->
  awaiting rid (pending w) = Some ExternalCaller ->
  _connected (this w) = true ->
  this w' = this w
  /\ emitted w' = emitted w
  /\ network w' = network w
  /\ unhandled w' = unhandled w
  /\ settled w' = settled w ++ [(rid, outcome host (Normal response))].
Proof.
  intros H Hk Hon.
  apply step_PostSettles in H. destruct H as (k & Hk' & ->).
  assert (k = ExternalCaller) by congruence. subst k.
  rewrite answered_this, answered_emitted, answered_network, Hon.
  cbn [probe_succeeds]. rewrite !app_nil_r.
  repeat apply conj; try reflexivity;
    rewrite post_settles_eq, ?outcome_fst, request_awaited_snd;
    cbn [this resume modify snd]; rewrite Hon; reflexivity.
Qed.

(** X11: While the provider is not connected, any answer to any POST, readable
    or not, makes [request] start one chain-id probe through the bound
    client before anything else: one more POST, one more suspended
    invocation. *)
Theorem answer_while_disconnected_starts_probe
    (rid : nat) (response : AxiosResponse) (client : AxiosInstance)
    (w w' : World) :
  step host (PostSettles rid (Normal response)) w = Some w' ->
  _connected (this w) = false ->
  _httpClient (this w) = Some client ->
  network w' = network w ++ [eth_chainId_post (next_request w) client]
  /\ pending w'
     = filter (fun p => negb (fst p =? rid)%nat) (pending w)
       ++ [(next_request w, ChainIdProbe FromRequest)].
Proof.
  intros H Hoff Hc.
  apply step_PostSettles in H. destruct H as (k & Hk & ->).
  now rewrite answered_network, answered_pending, Hoff, Hc.
Qed.

(** X12: A probe that was started before [setWeb3Client] and is answered after
    it still connects the provider and stores the chain id it observed,
    although the client and the endpoint are by then the new ones. *)
Theorem stale_probe_still_connects
    (rid : nat) (response : AxiosResponse) (origin : ProbeOrigin)
    (s : string) (w w1 w2 : World) :
  awaiting rid (pending w) = Some (ChainIdProbe origin) ->
  has_http_scheme s = true ->
  step host (CallSetWeb3Client (JString s)) w = Some w1 ->
  step host (PostSettles rid (Normal response)) w1 = Some w2 ->
  nullish (data response) = false ->
  network w1 = network w ++ [eth_chainId_post (next_request w)
                               (mkAxios (JString s))]
  /\ this w2 = mkProvider (Some (mkAxios (JString s))) (chainId_of response)
                 true (JString s)
  /\ exists new,
       emitted w2 = emitted w ++ Connect_with (chainId_of response) :: new.
Proof.
  intros Hk Hs H1 H2 Hn.
  assert (E1 : w1 = snd (setWeb3Client host (JString s) w))
    by (cbn in H1; congruence).
  clear H1.
  rewrite setWeb3Client_eq, is_http_url_string, Hs, _connectToClient_eq
    in E1. cbn in E1.
  assert (Hk1 : awaiting rid (pending w1) = Some (ChainIdProbe origin))
    by (subst w1; cbn; now apply awaiting_app).
  apply step_PostSettles in H2. destruct H2 as (k & Hk2 & ->).
  assert (k = ChainIdProbe origin) by congruence. subst k.
  split; [now subst w1|]. split.
  - rewrite answered_this. cbn. rewrite Hn. now subst w1.
  - rewrite answered_emitted. cbn. rewrite Hn. cbn.
    eexists. subst w1. reflexivity.
Qed.

(** X13: When the answer to a probe has no [result] to read, the provider
    connects with the chain id [undefined] and the stored chain id is
    [undefined] again; the probe that succeeds next then emits Connect
    only, whatever chain id it observes. *)
Theorem missing_result_forgets_chain
    (rid1 rid2 : nat) (r1 r2 : AxiosResponse) (k1 k2 : Awaiting)
    (w w1 w2 : World) :
  step host (PostSettles rid1 (Normal r1)) w = Some w1 ->
  awaiting rid1 (pending w) = Some k1 ->
  probe_succeeds k1 (Normal r1) = true ->
  chainId_of r1 = JUndefined ->
  step host (PostSettles rid2 (Normal r2)) w1 = Some w2 ->
  awaiting rid2 (pending w1) = Some k2 ->
  probe_succeeds k2 (Normal r2) = true ->
  In (Connect_with JUndefined) (emitted w1)
  /\ _connected (this w1) = true
  /\ _clientChainId (this w1) = JUndefined
  /\ emitted w2 = emitted w1 ++ [Connect_with (chainId_of r2)].
Proof.
  intros H1 Hk1 Hp1 Hu H2 Hk2 Hp2.
  apply step_PostSettles in H1. destruct H1 as (k & Hk & ->).
  assert (k = k1) by congruence. subst k.
  apply step_PostSettles in H2. destruct H2 as (k & Hk' & ->).
  assert (k = k2) by congruence. subst k.
  assert (Hc : _clientChainId
                 (this (snd (post_settles host rid1 (Normal r1) k1 w)))
               = JUndefined)
    by now rewrite answered_this, Hp1, <- Hu.
  repeat apply conj.
  - rewrite answered_emitted, Hp1, Hu. apply in_or_app. right. now left.
  - now rewrite answered_this, Hp1.
  - exact Hc.
  - rewrite (answered_emitted host rid2), Hp2. unfold chain_changed.
    now rewrite Hc.
Qed.

(** ** The body of the POST *)

Lemma props_get_set_other (k k' : string) (v : JsValue) (o : Props) :
  k' <> k -> props_get k' (props_set k v o) = props_get k' o.
Proof.
  intros Hn. induction o as [|[k0 v0] o IH]; cbn.
  - destruct (k =? k') eqn:E; [|reflexivity].
    apply String.eqb_eq in E. congruence.
  - destruct (k0 =? k) eqn:E; cbn.
    + apply String.eqb_eq in E. subst k0.
      destruct (k =? k') eqn:E'; [|reflexivity].
      apply String.eqb_eq in E'. congruence.
    + now rewrite IH.
Qed.

Lemma props_set_fresh (k : string) (v : JsValue) (o : Props) :
  ~ In k (map fst o) -> props_set k v o = o ++ [(k, v)].
Proof.
  induction o as [|[k0 v0] o IH]; cbn; intros H; [reflexivity|].
  destruct (k0 =? k) eqn:E.
  - apply String.eqb_eq in E. exfalso. auto.
  - rewrite IH; auto.
Qed.

Lemma props_define_fresh (defs o : Props) :
  NoDup (map fst (o ++ defs)) -> props_define o defs = o ++ defs.
Proof.
  unfold props_define.
  revert o. induction defs as [|[k v] defs IH]; cbn; intros o H.
  - now rewrite app_nil_r.
  - assert (Hk : ~ In k (map fst o)).
    { rewrite map_app in H. cbn in H. apply NoDup_remove_2 in H.
      intros Hi. apply H. apply in_or_app. now left. }
    rewrite props_set_fresh by exact Hk.
    rewrite IH; rewrite <- app_assoc; [reflexivity|exact H].
Qed.

Lemma own_props_fresh (defs : Props) :
  NoDup (map fst defs) -> own_props defs = defs.
Proof. intros H. now apply (props_define_fresh defs []). Qed.

Lemma insert_index_perm (e : N * (string * JsValue))
    (l : list (N * (string * JsValue))) :
  Permutation (insert_index e l) (e :: l).
Proof.
  induction l as [|e' l IH]; cbn; [reflexivity|].
  destruct (fst e <? fst e')%N; [reflexivity|].
  rewrite IH. apply perm_swap.
Qed.

Lemma sort_index_perm (l : list (N * (string * JsValue))) :
  Permutation (sort_index l) l.
Proof.
  induction l as [|e l IH]; cbn; [reflexivity|].
  rewrite insert_index_perm. now constructor.
Qed.

Lemma entries_perm (o : Props) :
  Permutation (map snd (index_entries o) ++ named_entries o) o.
Proof.
  induction o as [|[k v] o IH]; cbn; [reflexivity|].
  destruct (array_index k); cbn.
  - now constructor.
  - rewrite <- Permutation_middle. now constructor.
Qed.

Lemma enumeration_perm (defs : Props) :
  Permutation (enumeration defs) (own_props defs).
Proof.
  unfold enumeration. rewrite sort_index_perm. apply entries_perm.
Qed.

Lemma enumeration_NoDup (defs : Props) : NoDup (map fst (enumeration defs)).
Proof.
  eapply Permutation_NoDup; [|apply (own_props_NoDup defs)].
  apply Permutation_map. symmetry. apply enumeration_perm.
Qed.

Lemma props_get_keys (k : string) (o : Props) :
  props_get k o = None <-> ~ In k (map fst o).
Proof.
  induction o as [|[k0 v0] o IH]; cbn.
  - intuition.
  - destruct (k0 =? k) eqn:E.
    + apply String.eqb_eq in E. subst. split; [discriminate|intuition].
    + apply String.eqb_neq in E. rewrite IH. intuition.
Qed.

Lemma props_get_Some (k : string) (v : JsValue) (o : Props) :
  props_get k o = Some v -> In (k, v) o.
Proof.
  induction o as [|[k0 v0] o IH]; cbn; [discriminate|].
  destruct (k0 =? k) eqn:E; [|auto].
  apply String.eqb_eq in E. intros H. inversion H. subst. auto.
Qed.

Lemma props_get_perm (k : string) (o o' : Props) :
  Permutation o o' -> NoDup (map fst o) -> props_get k o = props_get k o'.
Proof.
  intros Hp Hd.
  assert (Hd' : NoDup (map fst o'))
    by (eapply Permutation_NoDup; [apply Permutation_map; exact Hp|exact Hd]).
  destruct (props_get k o) as [v|] eqn:E.
  - symmetry. apply props_get_In; [exact Hd'|].
    eapply Permutation_in; [exact Hp|]. now apply props_get_Some.
  - symmetry. apply props_get_keys. apply props_get_keys in E.
    intros Hi. apply E.
    eapply Permutation_in; [apply Permutation_map; symmetry; exact Hp|].
    exact Hi.
Qed.

(** X14: The body of the POST is [rpcOptions] with [method] and [params] laid
    over it: [method] and [params] are those of the call, also when
    [rpcOptions] has properties of these names, and every other property
    is the one of [rpcOptions] ([undefined] without [rpcOptions]). *)
Theorem request_data_merges (args : RequestArguments) :
  property (request_data args) "method" = JString (method args)
  /\ property (request_data args) "params"
     = JArray (arrayParams (params args))
  /\ forall k,
       k <> "method" -> k <> "params" ->
       property (request_data args) k
       = match rpcOptions args with
         | Some o => property (JObject o) k
         | None => JUndefined
         end.
Proof.
  split; [|split].
  - unfold request_data, property, own_props.
    rewrite props_define_app. cbn [props_define fold_left fst snd].
    rewrite props_get_set_other by discriminate.
    now rewrite props_get_set_same.
  - apply request_data_params.
  - intros k Hm Hp. unfold request_data, property, own_props.
    rewrite props_define_app. cbn [props_define fold_left fst snd].
    rewrite !props_get_set_other by auto.
    destruct (rpcOptions args) as [o|]; [|reflexivity].
    change (props_define [] (enumeration o)) with (own_props (enumeration o)).
    rewrite own_props_fresh by apply enumeration_NoDup.
    rewrite (props_get_perm k _ _ (enumeration_perm o)
               (enumeration_NoDup o)).
    reflexivity.
Qed.

(** ** Parameters given as an object *)

(** X15: An object whose keys are distinct and none of them an array index is
    sent as its values in the order in which the properties were
    created. *)
Theorem named_params_keep_creation_order (defs : Props) :
  NoDup (map fst defs) ->
  (forall k, In k (map fst defs) -> array_index k = None) ->
  arrayParams (ParamsObject defs) = map snd defs
  /\ Object_keys defs = map fst defs.
Proof.
  intros Hd Hk.
  assert (E : enumeration defs = defs).
  { unfold enumeration. rewrite own_props_fresh by exact Hd.
    assert (Hi : index_entries defs = []).
    { clear Hd. induction defs as [|[k v] defs IH]; cbn; [reflexivity|].
      rewrite (Hk k) by (cbn; auto). apply IH.
      intros k' Hk'. apply Hk. cbn. auto. }
    rewrite Hi. cbn. unfold named_entries.
    clear Hd Hi. induction defs as [|[k v] defs IH]; cbn; [reflexivity|].
    rewrite (Hk k) by (cbn; auto). f_equal. apply IH.
    intros k' Hk'. apply Hk. cbn. auto. }
  unfold arrayParams, Object_values, Object_keys. now rewrite E.
Qed.

Lemma insert_index_sorted (e : N * (string * JsValue))
    (l : list (N * (string * JsValue))) :
  Sorted (fun a b => (fst a <= fst b)%N) l ->
  Sorted (fun a b => (fst a <= fst b)%N) (insert_index e l).
Proof.
  induction l as [|e' l IH]; cbn; intros H.
  - repeat constructor.
  - destruct (fst e <? fst e')%N eqn:E.
    + apply N.ltb_lt in E. constructor; [exact H|]. constructor. lia.
    + apply N.ltb_ge in E. inversion H as [|? ? Hs Hh]; subst.
      constructor; [auto|].
      destruct l as [|e'' l]; cbn.
      * constructor. exact E.
      * destruct (fst e <? fst e'')%N; constructor;
          [exact E|now inversion Hh].
Qed.

Lemma sort_index_sorted (l : list (N * (string * JsValue))) :
  Sorted (fun a b => (fst a <= fst b)%N) (sort_index l).
Proof.
  induction l as [|e l IH]; cbn; [constructor|].
  now apply insert_index_sorted.
Qed.

Lemma index_entries_index (o : Props) :
  Forall (fun e => array_index (fst (snd e)) = Some (fst e))
    (index_entries o).
Proof.
  induction o as [|[k v] o IH]; cbn; [constructor|].
  destruct (array_index k) eqn:E; [constructor|]; auto.
Qed.

(** X16: The values of an object are sent in two runs: first those under
    array-index keys, by ascending index, then those under the other
    keys; together they are the properties of the object, each once. *)
Theorem index_keys_come_first (defs : Props) :
  exists indexed named,
    arrayParams (ParamsObject defs) = map snd (map snd indexed) ++ map snd named
    /\ Forall (fun e => array_index (fst (snd e)) = Some (fst e)) indexed
    /\ Sorted (fun a b => (fst a <= fst b)%N) indexed
    /\ Forall (fun kv => array_index (fst kv) = None) named
    /\ Permutation (map snd indexed ++ named) (own_props defs).
Proof.
  exists (sort_index (index_entries (own_props defs))),
         (named_entries (own_props defs)).
  repeat apply conj.
  - unfold arrayParams, Object_values, enumeration. now rewrite map_app.
  - eapply Permutation_Forall; [symmetry; apply sort_index_perm|].
    apply index_entries_index.
  - apply sort_index_sorted.
  - unfold named_entries. apply Forall_forall. intros kv H.
    apply filter_In in H. destruct H as [_ H].
    now destruct (array_index (fst kv)).
  - apply enumeration_perm.
Qed.

(** ** The URL test *)

Lemma starts_with_lowercase (p s : string) :
  starts_with p (lowercase s) = true <->
  exists a b, s = (a ++ b)%string /\ lowercase a = p.
Proof.
  revert s. induction p as [|c p IH]; intros s.
  - split; [|destruct s; reflexivity].
    intros _. exists EmptyString, s. auto.
  - destruct s as [|x s]; cbn.
    + split; [discriminate|].
      intros (a & b & E & H). destruct a; cbn in *; discriminate.
    + rewrite andb_true_iff, Ascii.eqb_eq, IH. split.
      * intros (-> & a & b & -> & <-).
        exists (String x a), b. auto.
      * intros (a & b & E & H). destruct a as [|y a]; cbn in *;
          [discriminate|].
        inversion E; subst. inversion H; subst. eauto.
Qed.

(** X17: The URL test accepts exactly the strings that begin, in any mix of
    upper and lower case, with [http://] or [https://]; what follows the
    scheme is not looked at, so the bare scheme passes too; a value that
    is not a string never passes. *)
Theorem url_test_accepts_scheme_prefix (v : JsValue) :
  is_http_url v = true <->
  exists scheme rest,
    v = JString (scheme ++ rest)
    /\ (lowercase scheme = "http://" \/ lowercase scheme = "https://").
Proof.
  rewrite is_http_url_spec. unfold has_http_scheme. split.
  - intros (s & -> & H). apply orb_true_iff in H.
    destruct H as [H|H]; apply starts_with_lowercase in H;
      destruct H as (a & b & -> & H); eauto.
  - intros (a & b & -> & H). exists (a ++ b)%string. split; [reflexivity|].
    apply orb_true_iff.
    destruct H as [H|H]; [left|right]; apply starts_with_lowercase; eauto.
Qed.

(** ** Reconnecting *)

Lemma awaiting_fresh (n : nat) (k : Awaiting) (l : list (nat * Awaiting)) :
  Forall (fun e => fst e < n) l -> awaiting n (l ++ [(n, k)]) = Some k.
Proof.
  induction 1 as [|[r k0] l Hr _ IH]; cbn.
  - now rewrite Nat.eqb_refl.
  - cbn in Hr. destruct (r =? n)%nat eqn:E; [|exact IH].
    apply Nat.eqb_eq in E. lia.
Qed.

Lemma filter_Forall {A} (P : A -> Prop) (f : A -> bool) (l : list A) :
  Forall P l -> Forall P (filter f l).
Proof.
  intros H. apply Forall_forall. intros x Hx.
  apply filter_In in Hx. rewrite Forall_forall in H. now apply H.
Qed.

(** X18: After a refused POST has disconnected the provider, the next answer to
    a call from outside starts a probe, and when that probe is answered
    with a body that can be read the provider is connected again: the
    events of the three settlements are Disconnect, then Connect with the
    chain id observed, then ChainChanged if that differs from the chain id
    stored before the disconnection. *)
Theorem reconnects_after_disconnect
    (rid1 rid2 : nat) (error : JsError) (r2 r3 : AxiosResponse)
    (w w1 w2 : World) :
  reachable host w ->
  _connected (this w) = true ->
  refused error = true ->
  step host (PostSettles rid1 (Throw error)) w = Some w1 ->
  step host (PostSettles rid2 (Normal r2)) w1 = Some w2 ->
  awaiting rid2 (pending w1) = Some ExternalCaller ->
  nullish (data r3) = false ->
  exists w3,
    step host (PostSettles (next_request w1) (Normal r3)) w2 = Some w3
    /\ _connected (this w1) = false
    /\ _connected (this w2) = false
    /\ _connected (this w3) = true
    /\ emitted w3
       = emitted w ++ Disconnect_4900 :: Connect_with (chainId_of r3) ::
           (if chain_changed (chainId_of r3) w
            then [(ChainChanged, chainId_of r3)] else []).
Proof.
  intros Hr Hon Href H1 H2 Hk2 Hn.
  assert (R1 : reachable host w1) by eauto using reachable_step.
  destruct (reachable_bound w1 R1) as (url & _ & Hc1 & _).
  destruct (reachable_numbered host w1 R1) as (_ & _ & Np).
  apply step_PostSettles in H1. destruct H1 as (k1 & Hk1 & E1).
  apply step_PostSettles in H2. destruct H2 as (k2 & Hk2' & E2).
  assert (k2 = ExternalCaller) by congruence. subst k2.
  assert (T1 : this w1 = mkProvider (_httpClient (this w))
                           (_clientChainId (this w)) false
                           (web3Client (this w)))
    by (subst w1; now rewrite rejected_this, Href, Hon).
  assert (L1 : emitted w1 = emitted w ++ [Disconnect_4900])
    by (subst w1; now rewrite rejected_emitted, Href, Hon).
  assert (T2 : this w2 = this w1)
    by (subst w2; now rewrite answered_this).
  assert (L2 : emitted w2 = emitted w1)
    by (subst w2; rewrite answered_emitted; cbn; now rewrite app_nil_r).
  assert (P2 : awaiting (next_request w1) (pending w2)
               = Some (ChainIdProbe FromRequest)).
  { assert (Hoff : _connected (this w1) = false) by now rewrite T1.
    subst w2. rewrite answered_pending, Hoff, Hc1.
    apply awaiting_fresh. now apply filter_Forall. }
  exists (snd (post_settles host (next_request w1) (Normal r3)
                 (ChainIdProbe FromRequest) w2)).
  split; [cbn; now rewrite P2|].
  split; [now rewrite T1|]. split; [now rewrite T2, T1|].
  rewrite answered_this, answered_emitted. cbn [probe_succeeds request_fails].
  rewrite Hn. cbn [negb _connected]. split; [reflexivity|].
  unfold chain_changed. rewrite T2, T1, L2, L1. cbn [_clientChainId].
  now rewrite <- app_assoc.
Qed.

Lemma run_reachable (inputs : list Input) (w w' : World) :
  reachable host w -> run host inputs w = Some w' -> reachable host w'.
Proof.
  revert w. induction inputs as [|i inputs IH]; cbn; intros w Hr H.
  - now inversion H; subst.
  - destruct (step host i w) as [w1|] eqn:E; [|discriminate].
    eauto using reachable_step.
Qed.

End Further.

(** ** The further theorems at work on sample runs *)

Lemma after_reachable (inputs : list Input) :
  run sample_host inputs started = Some (after inputs) ->
  reachable sample_host (after inputs).
Proof.
  apply run_reachable. exact (reachable_new sample_host _ _ started_ok).
Qed.

(** X2 at work on a sample run. *)
Lemma constructor_binds_and_probes_witness :
  new_Web3ProvidersHttp sample_host (JString "http://localhost:8545") =
  (Normal tt,
   mkWorld
     (mkProvider (Some (mkAxios (JString "http://localhost:8545")))
        JUndefined false (JString "http://localhost:8545"))
     []
     [eth_chainId_post 0 (mkAxios (JString "http://localhost:8545"))]
     [(0, ChainIdProbe FromConstructor)]
     [] [] 1).
Proof.
  apply (constructor_binds_and_probes sample_host "http://localhost:8545").
  vm_compute; reflexivity.
Defined.

(** X3 at work on a sample run. *)
Lemma setWeb3Client_rebinds_and_probes_witness :
  setWeb3Client sample_host (JString "http://other:8545")
    (after [PostSettles 0 (answers chain_0x1)]) =
  (Normal tt,
   mkWorld
     (mkProvider (Some (mkAxios (JString "http://other:8545")))
        (_clientChainId (this (after [PostSettles 0 (answers chain_0x1)])))
        (_connected (this (after [PostSettles 0 (answers chain_0x1)])))
        (JString "http://other:8545"))
     (emitted (after [PostSettles 0 (answers chain_0x1)]))
     (network (after [PostSettles 0 (answers chain_0x1)])
      ++ [eth_chainId_post
            (next_request (after [PostSettles 0 (answers chain_0x1)]))
            (mkAxios (JString "http://other:8545"))])
     (pending (after [PostSettles 0 (answers chain_0x1)])
      ++ [(next_request (after [PostSettles 0 (answers chain_0x1)]),
           ChainIdProbe FromSetWeb3Client)])
     (settled (after [PostSettles 0 (answers chain_0x1)]))
     (unhandled (after [PostSettles 0 (answers chain_0x1)]))
     (S (next_request (after [PostSettles 0 (answers chain_0x1)])))).
Proof.
  apply (setWeb3Client_rebinds_and_probes sample_host "http://other:8545"
           (after [PostSettles 0 (answers chain_0x1)])).
  vm_compute; reflexivity.
Defined.

(** X4 at work on a sample run. *)
Lemma client_is_always_bound_witness :
  exists url,
    has_http_scheme url = true
    /\ _httpClient (this (after [PostSettles 0 (answers chain_0x1);
                                 CallSetWeb3Client other_endpoint]))
       = Some (mkAxios (JString url))
    /\ web3Client (this (after [PostSettles 0 (answers chain_0x1);
                                CallSetWeb3Client other_endpoint]))
       = JString url
    /\ fst (request sample_host eth_blockNumber
              (after [PostSettles 0 (answers chain_0x1);
                      CallSetWeb3Client other_endpoint]))
       = Normal (next_request (after [PostSettles 0 (answers chain_0x1);
                                      CallSetWeb3Client other_endpoint]))
    /\ network (snd (request sample_host eth_blockNumber
                       (after [PostSettles 0 (answers chain_0x1);
                               CallSetWeb3Client other_endpoint])))
       = network (after [PostSettles 0 (answers chain_0x1);
                         CallSetWeb3Client other_endpoint])
         ++ [mkPost (next_request (after [PostSettles 0 (answers chain_0x1);
                                          CallSetWeb3Client other_endpoint]))
               (mkAxios (JString url)) ""
               (request_data eth_blockNumber)
               (request_config eth_blockNumber)].
Proof.
  apply (client_is_always_bound sample_host
           (after [PostSettles 0 (answers chain_0x1);
                   CallSetWeb3Client other_endpoint])
           eth_blockNumber).
  apply after_reachable. vm_compute; reflexivity.
Defined.

(** X5 at work on a sample run. *)
Lemma connected_agrees_with_events_witness :
  _connected (this (after [PostSettles 0 (answers chain_0x1);
                           PostSettles 1 ECONNREFUSED]))
  = connection_of_log (emitted (after [PostSettles 0 (answers chain_0x1);
                                       PostSettles 1 ECONNREFUSED])).
Proof.
  apply (connected_agrees_with_events sample_host).
  apply after_reachable. vm_compute; reflexivity.
Defined.

(** X6 at work on a sample run. *)
Lemma chainId_agrees_with_events_witness :
  _clientChainId (this (after [PostSettles 0 (answers chain_0x1);
                               PostSettles 1 (answers chain_0x2)]))
  = chainId_of_log (emitted (after [PostSettles 0 (answers chain_0x1);
                                    PostSettles 1 (answers chain_0x2)])).
Proof.
  apply (chainId_agrees_with_events sample_host).
  apply after_reachable. vm_compute; reflexivity.
Defined.

(** X7 at work on a sample run. *)
Lemma ChainChanged_follows_Connect_witness :
  announced None (emitted (after [PostSettles 0 (answers chain_0x1);
                                  PostSettles 1 (answers chain_0x2)])).
Proof.
  apply (ChainChanged_follows_Connect sample_host).
  apply after_reachable. vm_compute; reflexivity.
Defined.

(** X8 at work on a sample run. *)
Lemma external_request_is_settled_witness :
  settled (after [PostSettles 0 (answers chain_0x1);
                  CallRequest eth_blockNumber;
                  PostSettles 2 ECONNREFUSED])
  = settled (after [PostSettles 0 (answers chain_0x1);
                    CallRequest eth_blockNumber])
    ++ [(2, outcome sample_host ECONNREFUSED)]
  /\ (forall e, outcome sample_host ECONNREFUSED = Throw e ->
        code e = JUndefined
        /\ message e = message (underlying sample_host ECONNREFUSED))
  /\ unhandled (after [PostSettles 0 (answers chain_0x1);
                       CallRequest eth_blockNumber;
                       PostSettles 2 ECONNREFUSED])
     = unhandled (after [PostSettles 0 (answers chain_0x1);
                         CallRequest eth_blockNumber])
  /\ _clientChainId (this (after [PostSettles 0 (answers chain_0x1);
                                  CallRequest eth_blockNumber;
                                  PostSettles 2 ECONNREFUSED]))
     = _clientChainId (this (after [PostSettles 0 (answers chain_0x1);
                                    CallRequest eth_blockNumber])).
Proof.
  apply (external_request_is_settled sample_host 2 ECONNREFUSED
           (mkAxios (JString "http://localhost:8545"))
           (after [PostSettles 0 (answers chain_0x1);
                   CallRequest eth_blockNumber])
           (after [PostSettles 0 (answers chain_0x1);
                   CallRequest eth_blockNumber;
                   PostSettles 2 ECONNREFUSED]));
    vm_compute; reflexivity.
Defined.

(** X9 at work on a sample run. *)
Lemma failed_probe_is_unhandled_witness :
  settled (after [PostSettles 0 ETIMEDOUT]) = settled started
  /\ (exists e,
        unhandled (after [PostSettles 0 ETIMEDOUT]) = unhandled started ++ [e]
        /\ message e
           = ("Error connecting to client: Error getting chain id: "
              ++ message (underlying sample_host ETIMEDOUT) ++ newline
              ++ stack_trace sample_host
                   ("Error getting chain id: "
                    ++ message (underlying sample_host ETIMEDOUT)))%string)
  /\ emitted (after [PostSettles 0 ETIMEDOUT]) = emitted started ++
       (if post_refused ETIMEDOUT && _connected (this started)
        then [Disconnect_4900] else [])
  /\ _clientChainId (this (after [PostSettles 0 ETIMEDOUT]))
     = _clientChainId (this started).
Proof.
  apply (failed_probe_is_unhandled sample_host 0 ETIMEDOUT FromConstructor
           (mkAxios (JString "http://localhost:8545")) started
           (after [PostSettles 0 ETIMEDOUT]));
    vm_compute; reflexivity.
Defined.

(** X10 at work on a sample run. *)
Lemma answer_while_connected_is_passed_through_witness :
  this (after [PostSettles 0 (answers chain_0x1);
               CallRequest eth_blockNumber;
               PostSettles 2 (answers chain_0x2)])
  = this (after [PostSettles 0 (answers chain_0x1);
                 CallRequest eth_blockNumber])
  /\ emitted (after [PostSettles 0 (answers chain_0x1);
                     CallRequest eth_blockNumber;
                     PostSettles 2 (answers chain_0x2)])
     = emitted (after [PostSettles 0 (answers chain_0x1);
                       CallRequest eth_blockNumber])
  /\ network (after [PostSettles 0 (answers chain_0x1);
                     CallRequest eth_blockNumber;
                     PostSettles 2 (answers chain_0x2)])
     = network (after [PostSettles 0 (answers chain_0x1);
                       CallRequest eth_blockNumber])
  /\ unhandled (after [PostSettles 0 (answers chain_0x1);
                       CallRequest eth_blockNumber;
                       PostSettles 2 (answers chain_0x2)])
     = unhandled (after [PostSettles 0 (answers chain_0x1);
                         CallRequest eth_blockNumber])
  /\ settled (after [PostSettles 0 (answers chain_0x1);
                     CallRequest eth_blockNumber;
                     PostSettles 2 (answers chain_0x2)])
     = settled (after [PostSettles 0 (answers chain_0x1);
                       CallRequest eth_blockNumber])
       ++ [(2, outcome sample_host (Normal (mkResponse chain_0x2)))].
Proof.
  apply (answer_while_connected_is_passed_through sample_host 2
           (mkResponse chain_0x2)
           (after [PostSettles 0 (answers chain_0x1);
                   CallRequest eth_blockNumber])
           (after [PostSettles 0 (answers chain_0x1);
                   CallRequest eth_blockNumber;
                   PostSettles 2 (answers chain_0x2)]));
    vm_compute; reflexivity.
Defined.

(** X11 at work on a sample run. *)
Lemma answer_while_disconnected_starts_probe_witness :
  network (after [CallRequest eth_blockNumber; PostSettles 1 (answers JNull)])
  = network (after [CallRequest eth_blockNumber])
    ++ [eth_chainId_post (next_request (after [CallRequest eth_blockNumber]))
          (mkAxios (JString "http://localhost:8545"))]
  /\ pending (after [CallRequest eth_blockNumber;
                     PostSettles 1 (answers JNull)])
     = filter (fun p => negb (fst p =? 1)%nat)
         (pending (after [CallRequest eth_blockNumber]))
       ++ [(next_request (after [CallRequest eth_blockNumber]),
            ChainIdProbe FromRequest)].
Proof.
  apply (answer_while_disconnected_starts_probe sample_host 1
           (mkResponse JNull) (mkAxios (JString "http://localhost:8545"))
           (after [CallRequest eth_blockNumber])
           (after [CallRequest eth_blockNumber;
                   PostSettles 1 (answers JNull)]));
    vm_compute; reflexivity.
Defined.

(** X12 at work on a sample run. *)
Lemma stale_probe_still_connects_witness :
  network (after [CallSetWeb3Client other_endpoint])
  = network started ++ [eth_chainId_post (next_request started)
                          (mkAxios (JString "http://other:8545"))]
  /\ this (after [CallSetWeb3Client other_endpoint;
                  PostSettles 0 (answers chain_0x1)])
     = mkProvider (Some (mkAxios (JString "http://other:8545")))
         (chainId_of (mkResponse chain_0x1)) true
         (JString "http://other:8545")
  /\ exists new,
       emitted (after [CallSetWeb3Client other_endpoint;
                       PostSettles 0 (answers chain_0x1)])
       = emitted started
         ++ Connect_with (chainId_of (mkResponse chain_0x1)) :: new.
Proof.
  apply (stale_probe_still_connects sample_host 0 (mkResponse chain_0x1)
           FromConstructor "http://other:8545" started
           (after [CallSetWeb3Client other_endpoint])
           (after [CallSetWeb3Client other_endpoint;
                   PostSettles 0 (answers chain_0x1)]));
    vm_compute; reflexivity.
Defined.

(** X13 at work on a sample run. *)
Lemma missing_result_forgets_chain_witness :
  In (Connect_with JUndefined)
    (emitted (after [PostSettles 0 (answers chain_0x1);
                     CallSetWeb3Client other_endpoint;
                     PostSettles 1 (answers empty_body)]))
  /\ _connected (this (after [PostSettles 0 (answers chain_0x1);
                              CallSetWeb3Client other_endpoint;
                              PostSettles 1 (answers empty_body)])) = true
  /\ _clientChainId (this (after [PostSettles 0 (answers chain_0x1);
                                  CallSetWeb3Client other_endpoint;
                                  PostSettles 1 (answers empty_body)]))
     = JUndefined
  /\ emitted (after [PostSettles 0 (answers chain_0x1);
                     CallSetWeb3Client other_endpoint;
                     PostSettles 1 (answers empty_body);
                     PostSettles 2 (answers chain_0x2)])
     = emitted (after [PostSettles 0 (answers chain_0x1);
                       CallSetWeb3Client other_endpoint;
                       PostSettles 1 (answers empty_body)])
       ++ [Connect_with (chainId_of (mkResponse chain_0x2))].
Proof.
  apply (missing_result_forgets_chain sample_host 1 2
           (mkResponse empty_body) (mkResponse chain_0x2)
           (ChainIdProbe FromRequest) (ChainIdProbe FromSetWeb3Client)
           (after [PostSettles 0 (answers chain_0x1);
                   CallSetWeb3Client other_endpoint])
           (after [PostSettles 0 (answers chain_0x1);
                   CallSetWeb3Client other_endpoint;
                   PostSettles 1 (answers empty_body)])
           (after [PostSettles 0 (answers chain_0x1);
                   CallSetWeb3Client other_endpoint;
                   PostSettles 1 (answers empty_body);
                   PostSettles 2 (answers chain_0x2)]));
    vm_compute; reflexivity.
Defined.

(** X14 at work on a sample run. *)
Lemma request_data_merges_witness :
  property (request_data named_args) "method" = JString "eth_call"
  /\ property (request_data named_args) "jsonrpc" = JString "2.0"
  /\ property (request_data named_args) "id" = JNumber 7.
Proof.
  destruct (request_data_merges named_args) as (Hm & _ & Hk).
  repeat apply conj.
  - exact Hm.
  - rewrite (Hk "jsonrpc"); [vm_compute; reflexivity|discriminate..].
  - rewrite (Hk "id"); [vm_compute; reflexivity|discriminate..].
Defined.

(** X15 at work on a sample run. *)
Lemma named_params_keep_creation_order_witness :
  arrayParams (ParamsObject [("to", JString "0xabc"); ("data", JString "0x")])
  = map snd [("to", JString "0xabc"); ("data", JString "0x")]
  /\ Object_keys [("to", JString "0xabc"); ("data", JString "0x")]
     = map fst [("to", JString "0xabc"); ("data", JString "0x")].
Proof.
  apply (named_params_keep_creation_order
           [("to", JString "0xabc"); ("data", JString "0x")]).
  - repeat constructor; cbn; intuition discriminate.
  - intros k H. cbn in H. destruct H as [<-|[<-|[]]]; vm_compute; reflexivity.
Defined.

(** X17 at work on a sample run. *)
Lemma url_test_accepts_scheme_prefix_witness :
  is_http_url (JString "HTTPS://Node.example") = true
  /\ is_http_url (JString "hTTp://") = true.
Proof.
  split.
  - apply (proj2 (url_test_accepts_scheme_prefix
                    (JString "HTTPS://Node.example"))).
    exists "HTTPS://", "Node.example". split; [reflexivity|].
    right. vm_compute; reflexivity.
  - apply (proj2 (url_test_accepts_scheme_prefix (JString "hTTp://"))).
    exists "hTTp://", "". split; [reflexivity|].
    left. vm_compute; reflexivity.
Defined.

(** X18 at work on a sample run. *)
Lemma reconnects_after_disconnect_witness :
  exists w3,
    step sample_host
      (PostSettles
         (next_request (after [PostSettles 0 (answers chain_0x1);
                               CallRequest eth_blockNumber;
                               PostSettles 1 ECONNREFUSED]))
         (Normal (mkResponse chain_0x2)))
      (after [PostSettles 0 (answers chain_0x1);
              CallRequest eth_blockNumber;
              PostSettles 1 ECONNREFUSED;
              PostSettles 2 (answers chain_0x1)])
    = Some w3
    /\ _connected (this (after [PostSettles 0 (answers chain_0x1);
                                CallRequest eth_blockNumber;
                                PostSettles 1 ECONNREFUSED])) = false
    /\ _connected (this (after [PostSettles 0 (answers chain_0x1);
                                CallRequest eth_blockNumber;
                                PostSettles 1 ECONNREFUSED;
                                PostSettles 2 (answers chain_0x1)])) = false
    /\ _connected (this w3) = true
    /\ emitted w3
       = emitted (after [PostSettles 0 (answers chain_0x1);
                         CallRequest eth_blockNumber])
         ++ Disconnect_4900 :: Connect_with (chainId_of (mkResponse chain_0x2))
            :: (if chain_changed (chainId_of (mkResponse chain_0x2))
                     (after [PostSettles 0 (answers chain_0x1);
                             CallRequest eth_blockNumber])
                then [(ChainChanged, chainId_of (mkResponse chain_0x2))]
                else []).
Proof.
  apply (reconnects_after_disconnect sample_host 1 2
           (mkError (JString "ECONNREFUSED") "connect ECONNREFUSED" "")
           (mkResponse chain_0x1) (mkResponse chain_0x2)
           (after [PostSettles 0 (answers chain_0x1);
                   CallRequest eth_blockNumber])
           (after [PostSettles 0 (answers chain_0x1);
                   CallRequest eth_blockNumber;
                   PostSettles 1 ECONNREFUSED])
           (after [PostSettles 0 (answers chain_0x1);
                   CallRequest eth_blockNumber;
                   PostSettles 1 ECONNREFUSED;
                   PostSettles 2 (answers chain_0x1)]));
    try (vm_compute; reflexivity).
  apply after_reachable. vm_compute; reflexivity.
Defined.
